(** * Mock-test generator backend (main.py): a shallow embedding

    The backend keeps a list of test documents in one JSON file and relays
    prompts to a generative-language provider.  Python values are embedded as
    a JSON tree, Python exceptions as an error result, and the file, the
    network and the console as an explicit world that every handler threads
    through. *)

From Stdlib Require Import ZArith List String Ascii Bool Lia.
From Stdlib Require Import Permutation Sorted DecimalString.
Import ListNotations.

Set Warnings "-register-all".

Local Open Scope string_scope.
Local Open Scope Z_scope.

(** ** Python values *)

(** What [json.loads] and [request.json()] build.  A [str] is kept as its
    UTF-8 bytes; a [float] is kept as the text [repr] prints for it, from
    which its truth value can be read, and the handlers ask nothing else of
    one; a [dict] is its items in insertion order. *)
Inductive json : Type :=
| JNull
| JBool (b : bool)
| JInt (n : Z)
| JFloat (repr : string)
| JStr (s : string)
| JArr (items : list json)
| JObj (fields : list (string * json)).

Definition dict := list (string * json).

Inductive exn : Type :=
| HTTPException (status_code : Z) (detail : string)
| KeyError (key : json)
| IndexError (msg : string)
| JSONDecodeError (msg : string)
| AttributeError (ty attr : string)
| TypeError (op ty : string)
| IOError (msg : string)
| RequestException (msg : string).

Inductive outcome (A : Type) : Type :=
| Return (a : A)
| Raise (e : exn).
Arguments Return {A} a.
Arguments Raise {A} e.

Module Py.

Definition dq : string := String (ascii_of_nat 34) EmptyString.
Definition nl : string := String (ascii_of_nat 10) EmptyString.

Definition type_name (v : json) : string :=
  match v with
  | JNull => "NoneType"
  | JBool _ => "bool"
  | JInt _ => "int"
  | JFloat _ => "float"
  | JStr _ => "str"
  | JArr _ => "list"
  | JObj _ => "dict"
  end.

(** [bool(v)] *)
Definition truthy (v : json) : bool :=
  match v with
  | JNull => false
  | JBool b => b
  | JInt n => negb (n =? 0)
  | JFloat r => negb ((r =? "0.0")%string || (r =? "-0.0")%string)
  | JStr s => negb (s =? EmptyString)%string
  | JArr l => match l with [] => false | _ => true end
  | JObj d => match d with [] => false | _ => true end
  end.

(** [isinstance(v, int)]: [bool] is a subclass of [int]. *)
Definition isinstance_int (v : json) : option Z :=
  match v with
  | JInt n => Some n
  | JBool b => Some (if b then 1 else 0)
  | _ => None
  end.

(** *** Dictionaries *)

Fixpoint lookup (k : string) (d : dict) : option json :=
  match d with
  | [] => None
  | (k', v) :: d' => if (k =? k')%string then Some v else lookup k d'
  end.

(** [d[k] = v]: an existing key keeps its place. *)
Fixpoint dict_set (k : string) (v : json) (d : dict) : dict :=
  match d with
  | [] => [(k, v)]
  | (k', v') :: d' =>
      if (k =? k')%string then (k, v) :: d' else (k', v') :: dict_set k v d'
  end.

(** [x.get(k, default)]; only a dict has the method. *)
Definition get (x : json) (k : string) (default : json) : outcome json :=
  match x with
  | JObj d => Return (match lookup k d with Some v => v | None => default end)
  | _ => Raise (AttributeError (type_name x) "get")
  end.

(** *** Strings as sequences of code points *)

Definition is_continuation (a : ascii) : bool :=
  let n := N_of_ascii a in ((128 <=? n) && (n <? 192))%N.

(** One entry per code point: a lead byte with the continuation bytes that
    follow it. *)
Definition continues (s : string) : bool :=
  match s with
  | String b _ => is_continuation b
  | EmptyString => false
  end.

Fixpoint chars (s : string) : list string :=
  match s with
  | EmptyString => []
  | String a rest =>
      match chars rest with
      | c :: cs =>
          if continues rest then String a c :: cs
          else String a EmptyString :: c :: cs
      | [] => [String a EmptyString]
      end
  end.

Fixpoint continuation_bits (s : string) (acc : N) : N :=
  match s with
  | EmptyString => acc
  | String a rest =>
      continuation_bits rest (acc * 64 + N.land (N_of_ascii a) 63)%N
  end.

Definition code_point (c : string) : N :=
  match c with
  | EmptyString => 0%N
  | String a rest =>
      let n := N_of_ascii a in
      let lead :=
        if (n <? 128)%N then n
        else if (n <? 224)%N then N.land n 31
        else if (n <? 240)%N then N.land n 15
        else N.land n 7 in
      continuation_bits rest lead
  end.

(** [str.isspace] on one code point, the set [str.strip()] removes. *)
Definition isspace (cp : N) : bool :=
  (((9 <=? cp) && (cp <=? 13)) || ((28 <=? cp) && (cp <=? 32))
   || (cp =? 133) || (cp =? 160) || (cp =? 5760)
   || ((8192 <=? cp) && (cp <=? 8202))
   || (cp =? 8232) || (cp =? 8233) || (cp =? 8239) || (cp =? 8287)
   || (cp =? 12288))%N.

Definition space_char (c : string) : bool := isspace (code_point c).

Fixpoint drop_spaces (cs : list string) : list string :=
  match cs with
  | [] => []
  | c :: cs' => if space_char c then drop_spaces cs' else cs
  end.

(** [s.strip()] *)
Definition strip (s : string) : string :=
  String.concat EmptyString
    (rev (drop_spaces (rev (drop_spaces (chars s))))).

(** *** Substrings *)

Fixpoint starts_with (t s : string) : bool :=
  match t, s with
  | EmptyString, _ => true
  | String a t', String b s' => Ascii.eqb a b && starts_with t' s'
  | String _ _, EmptyString => false
  end.

(** [t in s] for two strings *)
Fixpoint occurs_in (t s : string) : bool :=
  starts_with t s
  || match s with
     | EmptyString => false
     | String _ s' => occurs_in t s'
     end.

(** *** [str] and [repr] *)

Definition str_of_int (n : Z) : string := NilZero.string_of_int (Z.to_int n).

Definition hex_digit (n : N) : string :=
  String.substring (N.to_nat n) 1 "0123456789abcdef".

(** The code points from 128 up that [str.isprintable] rejects, as closed
    ranges: the categories Cc, Cf, Cs, Co, Cn, Zl, Zp and Zs of the Unicode
    14.0 database that CPython 3.11 carries. *)
Definition not_printable : list (N * N) :=
  [ (128, 160); (173, 173); (888, 889); (896, 899); (907, 907); (909, 909);
    (930, 930); (1328, 1328); (1367, 1368); (1419, 1420); (1424, 1424);
    (1480, 1487); (1515, 1518); (1525, 1541); (1564, 1564); (1757, 1757);
    (1806, 1807); (1867, 1868); (1970, 1983); (2043, 2044); (2094, 2095);
    (2111, 2111); (2140, 2141); (2143, 2143); (2155, 2159); (2191, 2199);
    (2274, 2274); (2436, 2436); (2445, 2446); (2449, 2450); (2473, 2473);
    (2481, 2481); (2483, 2485); (2490, 2491); (2501, 2502); (2505, 2506);
    (2511, 2518); (2520, 2523); (2526, 2526); (2532, 2533); (2559, 2560);
    (2564, 2564); (2571, 2574); (2577, 2578); (2601, 2601); (2609, 2609);
    (2612, 2612); (2615, 2615); (2618, 2619); (2621, 2621); (2627, 2630);
    (2633, 2634); (2638, 2640); (2642, 2648); (2653, 2653); (2655, 2661);
    (2679, 2688); (2692, 2692); (2702, 2702); (2706, 2706); (2729, 2729);
    (2737, 2737); (2740, 2740); (2746, 2747); (2758, 2758); (2762, 2762);
    (2766, 2767); (2769, 2783); (2788, 2789); (2802, 2808); (2816, 2816);
    (2820, 2820); (2829, 2830); (2833, 2834); (2857, 2857); (2865, 2865);
    (2868, 2868); (2874, 2875); (2885, 2886); (2889, 2890); (2894, 2900);
    (2904, 2907); (2910, 2910); (2916, 2917); (2936, 2945); (2948, 2948);
    (2955, 2957); (2961, 2961); (2966, 2968); (2971, 2971); (2973, 2973);
    (2976, 2978); (2981, 2983); (2987, 2989); (3002, 3005); (3011, 3013);
    (3017, 3017); (3022, 3023); (3025, 3030); (3032, 3045); (3067, 3071);
    (3085, 3085); (3089, 3089); (3113, 3113); (3130, 3131); (3141, 3141);
    (3145, 3145); (3150, 3156); (3159, 3159); (3163, 3164); (3166, 3167);
    (3172, 3173); (3184, 3190); (3213, 3213); (3217, 3217); (3241, 3241);
    (3252, 3252); (3258, 3259); (3269, 3269); (3273, 3273); (3278, 3284);
    (3287, 3292); (3295, 3295); (3300, 3301); (3312, 3312); (3315, 3327);
    (3341, 3341); (3345, 3345); (3397, 3397); (3401, 3401); (3408, 3411);
    (3428, 3429); (3456, 3456); (3460, 3460); (3479, 3481); (3506, 3506);
    (3516, 3516); (3518, 3519); (3527, 3529); (3531, 3534); (3541, 3541);
    (3543, 3543); (3552, 3557); (3568, 3569); (3573, 3584); (3643, 3646);
    (3676, 3712); (3715, 3715); (3717, 3717); (3723, 3723); (3748, 3748);
    (3750, 3750); (3774, 3775); (3781, 3781); (3783, 3783); (3790, 3791);
    (3802, 3803); (3808, 3839); (3912, 3912); (3949, 3952); (3992, 3992);
    (4029, 4029); (4045, 4045); (4059, 4095); (4294, 4294); (4296, 4300);
    (4302, 4303); (4681, 4681); (4686, 4687); (4695, 4695); (4697, 4697);
    (4702, 4703); (4745, 4745); (4750, 4751); (4785, 4785); (4790, 4791);
    (4799, 4799); (4801, 4801); (4806, 4807); (4823, 4823); (4881, 4881);
    (4886, 4887); (4955, 4956); (4989, 4991); (5018, 5023); (5110, 5111);
    (5118, 5119); (5760, 5760); (5789, 5791); (5881, 5887); (5910, 5918);
    (5943, 5951); (5972, 5983); (5997, 5997); (6001, 6001); (6004, 6015);
    (6110, 6111); (6122, 6127); (6138, 6143); (6158, 6158); (6170, 6175);
    (6265, 6271); (6315, 6319); (6390, 6399); (6431, 6431); (6444, 6447);
    (6460, 6463); (6465, 6467); (6510, 6511); (6517, 6527); (6572, 6575);
    (6602, 6607); (6619, 6621); (6684, 6685); (6751, 6751); (6781, 6782);
    (6794, 6799); (6810, 6815); (6830, 6831); (6863, 6911); (6989, 6991);
    (7039, 7039); (7156, 7163); (7224, 7226); (7242, 7244); (7305, 7311);
    (7355, 7356); (7368, 7375); (7419, 7423); (7958, 7959); (7966, 7967);
    (8006, 8007); (8014, 8015); (8024, 8024); (8026, 8026); (8028, 8028);
    (8030, 8030); (8062, 8063); (8117, 8117); (8133, 8133); (8148, 8149);
    (8156, 8156); (8176, 8177); (8181, 8181); (8191, 8207); (8232, 8239);
    (8287, 8303); (8306, 8307); (8335, 8335); (8349, 8351); (8385, 8399);
    (8433, 8447); (8588, 8591); (9255, 9279); (9291, 9311); (11124, 11125);
    (11158, 11158); (11508, 11512); (11558, 11558); (11560, 11564);
    (11566, 11567); (11624, 11630); (11633, 11646); (11671, 11679);
    (11687, 11687); (11695, 11695); (11703, 11703); (11711, 11711);
    (11719, 11719); (11727, 11727); (11735, 11735); (11743, 11743);
    (11870, 11903); (11930, 11930); (12020, 12031); (12246, 12271);
    (12284, 12288); (12352, 12352); (12439, 12440); (12544, 12548);
    (12592, 12592); (12687, 12687); (12772, 12783); (12831, 12831);
    (42125, 42127); (42183, 42191); (42540, 42559); (42744, 42751);
    (42955, 42959); (42962, 42962); (42964, 42964); (42970, 42993);
    (43053, 43055); (43066, 43071); (43128, 43135); (43206, 43213);
    (43226, 43231); (43348, 43358); (43389, 43391); (43470, 43470);
    (43482, 43485); (43519, 43519); (43575, 43583); (43598, 43599);
    (43610, 43611); (43715, 43738); (43767, 43776); (43783, 43784);
    (43791, 43792); (43799, 43807); (43815, 43815); (43823, 43823);
    (43884, 43887); (44014, 44015); (44026, 44031); (55204, 55215);
    (55239, 55242); (55292, 63743); (64110, 64111); (64218, 64255);
    (64263, 64274); (64280, 64284); (64311, 64311); (64317, 64317);
    (64319, 64319); (64322, 64322); (64325, 64325); (64451, 64466);
    (64912, 64913); (64968, 64974); (64976, 65007); (65050, 65055);
    (65107, 65107); (65127, 65127); (65132, 65135); (65141, 65141);
    (65277, 65280); (65471, 65473); (65480, 65481); (65488, 65489);
    (65496, 65497); (65501, 65503); (65511, 65511); (65519, 65531);
    (65534, 65535); (65548, 65548); (65575, 65575); (65595, 65595);
    (65598, 65598); (65614, 65615); (65630, 65663); (65787, 65791);
    (65795, 65798); (65844, 65846); (65935, 65935); (65949, 65951);
    (65953, 65999); (66046, 66175); (66205, 66207); (66257, 66271);
    (66300, 66303); (66340, 66348); (66379, 66383); (66427, 66431);
    (66462, 66462); (66500, 66503); (66518, 66559); (66718, 66719);
    (66730, 66735); (66772, 66775); (66812, 66815); (66856, 66863);
    (66916, 66926); (66939, 66939); (66955, 66955); (66963, 66963);
    (66966, 66966); (66978, 66978); (66994, 66994); (67002, 67002);
    (67005, 67071); (67383, 67391); (67414, 67423); (67432, 67455);
    (67462, 67462); (67505, 67505); (67515, 67583); (67590, 67591);
    (67593, 67593); (67638, 67638); (67641, 67643); (67645, 67646);
    (67670, 67670); (67743, 67750); (67760, 67807); (67827, 67827);
    (67830, 67834); (67868, 67870); (67898, 67902); (67904, 67967);
    (68024, 68027); (68048, 68049); (68100, 68100); (68103, 68107);
    (68116, 68116); (68120, 68120); (68150, 68151); (68155, 68158);
    (68169, 68175); (68185, 68191); (68256, 68287); (68327, 68330);
    (68343, 68351); (68406, 68408); (68438, 68439); (68467, 68471);
    (68498, 68504); (68509, 68520); (68528, 68607); (68681, 68735);
    (68787, 68799); (68851, 68857); (68904, 68911); (68922, 69215);
    (69247, 69247); (69290, 69290); (69294, 69295); (69298, 69375);
    (69416, 69423); (69466, 69487); (69514, 69551); (69580, 69599);
    (69623, 69631); (69710, 69713); (69750, 69758); (69821, 69821);
    (69827, 69839); (69865, 69871); (69882, 69887); (69941, 69941);
    (69960, 69967); (70007, 70015); (70112, 70112); (70133, 70143);
    (70162, 70162); (70207, 70271); (70279, 70279); (70281, 70281);
    (70286, 70286); (70302, 70302); (70314, 70319); (70379, 70383);
    (70394, 70399); (70404, 70404); (70413, 70414); (70417, 70418);
    (70441, 70441); (70449, 70449); (70452, 70452); (70458, 70458);
    (70469, 70470); (70473, 70474); (70478, 70479); (70481, 70486);
    (70488, 70492); (70500, 70501); (70509, 70511); (70517, 70655);
    (70748, 70748); (70754, 70783); (70856, 70863); (70874, 71039);
    (71094, 71095); (71134, 71167); (71237, 71247); (71258, 71263);
    (71277, 71295); (71354, 71359); (71370, 71423); (71451, 71452);
    (71468, 71471); (71495, 71679); (71740, 71839); (71923, 71934);
    (71943, 71944); (71946, 71947); (71956, 71956); (71959, 71959);
    (71990, 71990); (71993, 71994); (72007, 72015); (72026, 72095);
    (72104, 72105); (72152, 72153); (72165, 72191); (72264, 72271);
    (72355, 72367); (72441, 72703); (72713, 72713); (72759, 72759);
    (72774, 72783); (72813, 72815); (72848, 72849); (72872, 72872);
    (72887, 72959); (72967, 72967); (72970, 72970); (73015, 73017);
    (73019, 73019); (73022, 73022); (73032, 73039); (73050, 73055);
    (73062, 73062); (73065, 73065); (73103, 73103); (73106, 73106);
    (73113, 73119); (73130, 73439); (73465, 73647); (73649, 73663);
    (73714, 73726); (74650, 74751); (74863, 74863); (74869, 74879);
    (75076, 77711); (77811, 77823); (78895, 82943); (83527, 92159);
    (92729, 92735); (92767, 92767); (92778, 92781); (92863, 92863);
    (92874, 92879); (92910, 92911); (92918, 92927); (92998, 93007);
    (93018, 93018); (93026, 93026); (93048, 93052); (93072, 93759);
    (93851, 93951); (94027, 94030); (94088, 94094); (94112, 94175);
    (94181, 94191); (94194, 94207); (100344, 100351); (101590, 101631);
    (101641, 110575); (110580, 110580); (110588, 110588); (110591, 110591);
    (110883, 110927); (110931, 110947); (110952, 110959); (111356, 113663);
    (113771, 113775); (113789, 113791); (113801, 113807); (113818, 113819);
    (113824, 118527); (118574, 118575); (118599, 118607); (118724, 118783);
    (119030, 119039); (119079, 119080); (119155, 119162); (119275, 119295);
    (119366, 119519); (119540, 119551); (119639, 119647); (119673, 119807);
    (119893, 119893); (119965, 119965); (119968, 119969); (119971, 119972);
    (119975, 119976); (119981, 119981); (119994, 119994); (119996, 119996);
    (120004, 120004); (120070, 120070); (120075, 120076); (120085, 120085);
    (120093, 120093); (120122, 120122); (120127, 120127); (120133, 120133);
    (120135, 120137); (120145, 120145); (120486, 120487); (120780, 120781);
    (121484, 121498); (121504, 121504); (121520, 122623); (122655, 122879);
    (122887, 122887); (122905, 122906); (122914, 122914); (122917, 122917);
    (122923, 123135); (123181, 123183); (123198, 123199); (123210, 123213);
    (123216, 123535); (123567, 123583); (123642, 123646); (123648, 124895);
    (124903, 124903); (124908, 124908); (124911, 124911); (124927, 124927);
    (125125, 125126); (125143, 125183); (125260, 125263); (125274, 125277);
    (125280, 126064); (126133, 126208); (126270, 126463); (126468, 126468);
    (126496, 126496); (126499, 126499); (126501, 126502); (126504, 126504);
    (126515, 126515); (126520, 126520); (126522, 126522); (126524, 126529);
    (126531, 126534); (126536, 126536); (126538, 126538); (126540, 126540);
    (126544, 126544); (126547, 126547); (126549, 126550); (126552, 126552);
    (126554, 126554); (126556, 126556); (126558, 126558); (126560, 126560);
    (126563, 126563); (126565, 126566); (126571, 126571); (126579, 126579);
    (126584, 126584); (126589, 126589); (126591, 126591); (126602, 126602);
    (126620, 126624); (126628, 126628); (126634, 126634); (126652, 126703);
    (126706, 126975); (127020, 127023); (127124, 127135); (127151, 127152);
    (127168, 127168); (127184, 127184); (127222, 127231); (127406, 127461);
    (127491, 127503); (127548, 127551); (127561, 127567); (127570, 127583);
    (127590, 127743); (128728, 128732); (128749, 128751); (128765, 128767);
    (128884, 128895); (128985, 128991); (129004, 129007); (129009, 129023);
    (129036, 129039); (129096, 129103); (129114, 129119); (129160, 129167);
    (129198, 129199); (129202, 129279); (129620, 129631); (129646, 129647);
    (129653, 129655); (129661, 129663); (129671, 129679); (129709, 129711);
    (129723, 129727); (129734, 129743); (129754, 129759); (129768, 129775);
    (129783, 129791); (129939, 129939); (129995, 130031); (130042, 131071);
    (173792, 173823); (177977, 177983); (178206, 178207); (183970, 183983);
    (191457, 194559); (195102, 196607); (201547, 917759);
    (918000, 1114111) ]%N.

Definition isprintable (cp : N) : bool :=
  negb (existsb (fun range => ((fst range <=? cp) && (cp <=? snd range))%N)
          not_printable).

Fixpoint hex_digits (width : nat) (n : N) : string :=
  match width with
  | O => EmptyString
  | S k => hex_digits k (n / 16)%N ++ hex_digit (n mod 16)%N
  end.

(** The escapes of [repr(str)] for a code point it does not print. *)
Definition escape (cp : N) : string :=
  if (cp <? 256)%N then "\x" ++ hex_digits 2 cp
  else if (cp <? 65536)%N then "\u" ++ hex_digits 4 cp
  else "\U" ++ hex_digits 8 cp.

(** One code point of [repr(str)], given as its UTF-8 bytes [c]: the quote
    in use and the backslash get a backslash, tab, newline and return their
    letter, every other code point that is not printable its hexadecimal
    escape, and the printable ones stand as they are. *)
Definition repr_char (quote : ascii) (c : string) : string :=
  let cp := code_point c in
  if ((cp =? N_of_ascii quote) || (cp =? 92))%N then
    String (ascii_of_nat 92) c
  else if (cp =? 9)%N then "\t"
  else if (cp =? 10)%N then "\n"
  else if (cp =? 13)%N then "\r"
  else if ((cp <? 32) || (cp =? 127))%N then escape cp
  else if (cp <? 128)%N then c
  else if isprintable cp then c
  else escape cp.

Definition repr_str (s : string) : string :=
  let quote :=
    if occurs_in "'" s && negb (occurs_in dq s)
    then ascii_of_nat 34 else ascii_of_nat 39 in
  String quote
    (String.concat EmptyString (map (repr_char quote) (chars s))
     ++ String quote EmptyString).

Fixpoint repr (v : json) : string :=
  match v with
  | JNull => "None"
  | JBool true => "True"
  | JBool false => "False"
  | JInt n => str_of_int n
  | JFloat r => r
  | JStr s => repr_str s
  | JArr l => "[" ++ String.concat ", " (map repr l) ++ "]"
  | JObj d =>
      "{" ++ String.concat ", "
               (map (fun kv => match kv with
                               | (k, x) => repr_str k ++ ": " ++ repr x
                               end) d)
          ++ "}"
  end.

(** [str(v)], also what an f-string field prints. *)
Definition str (v : json) : string :=
  match v with
  | JStr s => s
  | _ => repr v
  end.

(** *** Sizes, subscripts, iteration, membership *)

(** [len(v)] *)
Definition len (v : json) : outcome Z :=
  match v with
  | JArr l => Return (Z.of_nat (List.length l))
  | JStr s => Return (Z.of_nat (List.length (chars s)))
  | JObj d => Return (Z.of_nat (List.length d))
  | _ => Raise (TypeError "len" (type_name v))
  end.

(** [v[i]] for an int [i]; a negative index counts from the end. *)
Definition index_seq {A : Type} (l : list A) (i : Z) : option A :=
  let n := Z.of_nat (List.length l) in
  if (0 <=? i) && (i <? n) then nth_error l (Z.to_nat i)
  else if (- n <=? i) && (i <? 0) then nth_error l (Z.to_nat (n + i))
  else None.

Definition getitem_int (v : json) (i : Z) (key : json) : outcome json :=
  match v with
  | JArr l =>
      match index_seq l i with
      | Some x => Return x
      | None => Raise (IndexError "list index out of range")
      end
  | JStr s =>
      match index_seq (chars s) i with
      | Some c => Return (JStr c)
      | None => Raise (IndexError "string index out of range")
      end
  | JObj _ => Raise (KeyError key)
  | _ => Raise (TypeError "subscript" (type_name v))
  end.

(** [v[k]] for a str [k] *)
Definition getitem_str (v : json) (k : string) : outcome json :=
  match v with
  | JObj d =>
      match lookup k d with
      | Some x => Return x
      | None => Raise (KeyError (JStr k))
      end
  | _ => Raise (TypeError "subscript" (type_name v))
  end.

(** What a [for] loop over [v] visits. *)
Definition iter (v : json) : outcome (list json) :=
  match v with
  | JArr l => Return l
  | JStr s => Return (map JStr (chars s))
  | JObj d => Return (map (fun kv => JStr (fst kv)) d)
  | _ => Raise (TypeError "iter" (type_name v))
  end.

Definition is_str (k : string) (v : json) : bool :=
  match v with
  | JStr s => (s =? k)%string
  | _ => false
  end.

(** [k in v] for a str [k] *)
Definition contains (k : string) (v : json) : outcome bool :=
  match v with
  | JObj d => Return (match lookup k d with Some _ => true | None => false end)
  | JArr l => Return (existsb (is_str k) l)
  | JStr s => Return (occurs_in k s)
  | _ => Raise (TypeError "in" (type_name v))
  end.

(** [str(e)].  The handlers print or send the text of a KeyError, an
    IndexError, a JSONDecodeError and an IOError only; the last line is a
    summary, not the interpreter's wording. *)
Definition str_exn (e : exn) : string :=
  match e with
  | KeyError k => repr k
  | IndexError m | JSONDecodeError m | IOError m | RequestException m => m
  | HTTPException _ d => d
  | AttributeError ty attr =>
      "'" ++ ty ++ "' object has no attribute '" ++ attr ++ "'"
  | TypeError op ty => op ++ ": " ++ ty
  end.

End Py.

(** ** The world around a request *)

(** The database file is only ever written by [save_tests_to_db], which dumps
    a list of dicts; a file that is there but cannot be read or decoded is
    [Unreadable]. *)
Inductive db_file : Type :=
| Absent
| Unreadable
| Holds (tests : list dict).

(** How the next attempt to write the file ends. *)
Inductive disk : Type :=
| DiskOk
| OpenFails (msg : string)
| WriteFails (msg : string).

(** What a request does to the outside: a [print], a call of
    [open(path, "w")], a call of [requests.post]. *)
Inductive event : Type :=
| Printed (args : list json)
| OpenWrite (path : string)
| Posted (url : string) (body : json).

Record world : Type := mkWorld {
  db : db_file;
  faults : disk;
  log : list event
}.

Definition record_event (e : event) (w : world) : world :=
  mkWorld (db w) (faults w) (log w ++ [e])%list.

Definition set_db (f : db_file) (w : world) : world :=
  mkWorld f (faults w) (log w).

(** ** Computations: a result or an exception, and the world afterwards *)

Definition M (A : Type) : Type := world -> outcome A * world.

Definition ret {A : Type} (a : A) : M A := fun w => (Return a, w).

Definition raise {A : Type} (e : exn) : M A := fun w => (Raise e, w).

Definition bind {A B : Type} (c : M A) (k : A -> M B) : M B :=
  fun w =>
    match c w with
    | (Return a, w') => k a w'
    | (Raise e, w') => (Raise e, w')
    end.

(** [try: body  except <classes> as e: handler] *)
Definition try_except {A : Type} (body : M A) (caught : exn -> bool)
    (handler : exn -> M A) : M A :=
  fun w =>
    match body w with
    | (Raise e, w') => if caught e then handler e w' else (Raise e, w')
    | done => done
    end.

Definition lift {A : Type} (o : outcome A) : M A := fun w => (o, w).

Definition print (args : list json) : M unit :=
  fun w => (Return tt, record_event (Printed args) w).

(** The same sequencing without a world, for expressions that only compute. *)
Definition and_then {A B : Type} (o : outcome A) (k : A -> outcome B)
    : outcome B :=
  match o with
  | Return a => k a
  | Raise e => Raise e
  end.

Declare Scope py_scope.
Delimit Scope py_scope with py.
Notation "x <- c ;; k" := (bind c (fun x => k))
  (at level 61, c at next level, right associativity) : py_scope.
Notation "c ;;; k" := (bind c (fun _ => k))
  (at level 61, right associativity) : py_scope.
Notation "'let?' x := o 'in' k" := (and_then o (fun x => k))
  (at level 10, x name, o at level 100, k at level 200) : py_scope.
Local Open Scope py_scope.

(** ** Document store *)

Definition DB_FILE : string := "tests.json".

(** class Test(BaseModel) *)
Record Test : Type := mkTest {
  id : string;
  title : string;
  duration : Z;
  questions : list dict;
  createdAt : string
}.

(** [test.dict()] *)
Definition Test_dict (test : Test) : dict :=
  [ ("id", JStr (id test));
    ("title", JStr (title test));
    ("duration", JInt (duration test));
    ("questions", JArr (map JObj (questions test)));
    ("createdAt", JStr (createdAt test)) ].

(** No file ([os.path.exists] is false) gives [], and so does a file that
    cannot be read or decoded (the IOError and JSONDecodeError handler). *)
Definition load_tests_from_db : M (list dict) :=
  fun w =>
    (Return match db w with
            | Holds tests => tests
            | Absent | Unreadable => []
            end, w).

(** [with open(DB_FILE, "w") as f: json.dump(tests, f, indent=4)].  Opening
    for writing truncates the file, so a write that fails half way leaves
    contents that no longer decode. *)
Definition dump_tests (tests : list dict) : M unit :=
  fun w =>
    let w' := record_event (OpenWrite DB_FILE) w in
    match faults w with
    | DiskOk => (Return tt, set_db (Holds tests) w')
    | OpenFails msg => (Raise (IOError msg), w')
    | WriteFails msg => (Raise (IOError msg), set_db Unreadable w')
    end.

Definition is_IOError (e : exn) : bool :=
  match e with
  | IOError _ => true
  | _ => false
  end.

Definition save_tests_to_db (tests : list dict) : M unit :=
  try_except (dump_tests tests) is_IOError
    (fun e => print [JStr ("Error saving to DB: " ++ Py.str_exn e)]).

(** *** GET /api/tests *)

(** [x.get("createdAt", '')] *)
Definition createdAt_key (x : dict) : json :=
  match Py.lookup "createdAt" x with
  | Some v => v
  | None => JStr EmptyString
  end.

Definition str_key (x : dict) : option string :=
  match createdAt_key x with
  | JStr s => Some s
  | _ => None
  end.

Definition key_text (x : dict) : string :=
  match str_key x with
  | Some s => s
  | None => EmptyString
  end.

(** [x] goes in front of the first entry whose key is not above its own, so
    that entries with equal keys stay in the order they had. *)
Fixpoint insert_newest (x : dict) (sorted : list dict) : list dict :=
  match sorted with
  | [] => [x]
  | y :: rest =>
      if String.ltb (key_text x) (key_text y) then y :: insert_newest x rest
      else x :: sorted
  end.

(** [tests.sort(key=lambda x: x.get("createdAt", ''), reverse=True)] when
    every key is a str, the only case in which the order Python applies is
    the order of strings; [None] stands for the other lists, on which this
    development says nothing.  [list.sort] is stable, and [reverse=True]
    keeps entries with equal keys in their original order. *)
Definition sort_newest_first (tests : list dict) : option (list dict) :=
  if forallb (fun x => match str_key x with Some _ => true | None => false end)
       tests
  then Some (fold_right insert_newest [] tests)
  else None.

(** The value the handler returns; the pass FastAPI makes over it for
    [response_model=List[Test]] is not part of this embedding. *)
Definition get_all_tests (w : world) : option (list dict) :=
  match load_tests_from_db w with
  | (Return tests, _) => sort_newest_first tests
  | (Raise _, _) => None
  end.

(** *** POST /api/tests *)

Definition save_new_test (test : Test) : M json :=
  tests <- load_tests_from_db ;;
  let tests := (tests ++ [Test_dict test])%list in
  save_tests_to_db tests ;;;
  ret (JObj [("status", JStr "success"); ("test_id", JStr (id test))]).

(** *** DELETE /api/tests/{test_id} *)

(** [t.get("id") != test_id] *)
Definition other_id (test_id : string) (t : dict) : bool :=
  match Py.lookup "id" t with
  | Some (JStr s) => negb (s =? test_id)%string
  | _ => true
  end.

Definition delete_a_test (test_id : string) : M json :=
  tests <- load_tests_from_db ;;
  let initial_length := List.length tests in
  let tests := filter (other_id test_id) tests in
  if (List.length tests =? initial_length)%nat then
    raise (HTTPException 404 "Test not found")
  else
    save_tests_to_db tests ;;;
    ret (JObj [("status", JStr "success"); ("deleted_id", JStr test_id)]).

(** ** AI gateway *)

(** What [requests.post] hands back: the status, the body as text, and what
    [response.json()] makes of it (a value, or the decoder's complaint). *)
Record response : Type := mkResponse {
  status_code : Z;
  text : string;
  json_body : json + string
}.

Definition caught_by_gateway (e : exn) : bool :=
  match e with
  | KeyError _ | IndexError _ | JSONDecodeError _ => true
  | _ => false
  end.

(** [result["candidates"][0]["content"]["parts"][0]["text"]] *)
Definition json_text_of (result : json) : outcome json :=
  let? candidates := Py.getitem_str result "candidates" in
  let? candidate := Py.getitem_int candidates 0 (JInt 0) in
  let? content := Py.getitem_str candidate "content" in
  let? parts := Py.getitem_str content "parts" in
  let? part := Py.getitem_int parts 0 (JInt 0) in
  Py.getitem_str part "text".

(** ["promptFeedback" in result and "blockReason" in result["promptFeedback"]] *)
Definition block_reason_present (result : json) : outcome bool :=
  let? has_feedback := Py.contains "promptFeedback" result in
  if has_feedback then
    let? feedback := Py.getitem_str result "promptFeedback" in
    Py.contains "blockReason" feedback
  else Return false.

Section Gateway.

(** The key pasted into main.py, the provider behind [requests.post], and
    [json.loads] on a str. *)
Variable API_KEY : string.
Variable requests_post : string -> json -> response + string.
Variable json_loads : string -> json + string.

Definition API_URL : string :=
  "https://generativelanguage.googleapis.com/v1beta/models/gemini-2.0-flash:generateContent?key="
  ++ API_KEY.

Definition post (url : string) (payload : json) : M response :=
  fun w =>
    let w' := record_event (Posted url payload) w in
    match requests_post url payload with
    | inl r => (Return r, w')
    | inr msg => (Raise (RequestException msg), w')
    end.

(** [json.loads(v)] *)
Definition loads (v : json) : outcome json :=
  match v with
  | JStr s =>
      match json_loads s with
      | inl parsed => Return parsed
      | inr msg => Raise (JSONDecodeError msg)
      end
  | _ => Raise (TypeError "json.loads" (Py.type_name v))
  end.

Definition response_json (r : response) : outcome json :=
  match json_body r with
  | inl parsed => Return parsed
  | inr msg => Raise (JSONDecodeError msg)
  end.

Definition call_gemini_api (payload : json) : M json :=
  if negb (Py.truthy (JStr API_KEY)) || (API_KEY =? "YOUR_API_KEY_HERE")%string
  then raise (HTTPException 500 "Google AI API Key is not set in main.py.")
  else
    response <- post API_URL payload ;;
    if negb (status_code response =? 200) then
      raise (HTTPException (status_code response)
               ("API call failed: " ++ text response))
    else
      result <- lift (response_json response) ;;
      print [JStr "Gemini API raw response:"; result] ;;;
      blocked <- lift (block_reason_present result) ;;
      if blocked then
        reason <- lift (let? feedback := Py.getitem_str result "promptFeedback" in
                        Py.getitem_str feedback "blockReason") ;;
        raise (HTTPException 400 ("Request blocked by API: " ++ Py.str reason))
      else
        try_except
          (lift (let? json_text := json_text_of result in loads json_text))
          caught_by_gateway
          (fun e =>
             print [JStr "Error parsing Gemini response:"; result] ;;;
             raise (HTTPException 500
                      ("Invalid response structure from AI: " ++ Py.str_exn e))).

End Gateway.

(** ** POST /api/generate-paper *)

(** The opening of the instructions, up to the exam pattern rule. *)
Definition prompt_opening (exam_name : json) : string :=
  Py.nl ++ "    You are an expert exam paper creator. Your task is to generate a complete, realistic mock test based on the provided exam name, matching the real exam's structure as closely as possible."
  ++ Py.nl ++ "    Exam Name: " ++ Py.dq ++ Py.str exam_name ++ Py.dq
  ++ Py.nl ++ "    Instructions:"
  ++ Py.nl ++ "    1. Research and Determine Structure: First, research and determine the standard number of questions for the specified exam."
  ++ Py.nl ++ "    2. Generate Exact Question Count: Generate exactly that number of questions. Adhere strictly to the official exam pattern.".

Definition count_override (question_count : json) : string :=
  Py.nl ++ "    2a. Override: Generate exactly " ++ Py.str question_count ++ " questions, regardless of the official pattern.".

Definition prompt_content_rule : string :=
  Py.nl ++ "    3. Create Content: Generate a relevant test title, a suitable duration in minutes based on the official time limit, and the full set of questions.".

Definition duration_override (duration : json) : string :=
  Py.nl ++ "    3a. Override: Set the test duration to exactly " ++ Py.str duration ++ " minutes.".

Definition prompt_closing : string :=
  Py.nl ++ "    4. Bilingual Questions: For each question and its options, provide both English and a high-quality Hindi translation in the format: " ++ Py.dq ++ "English Text (हिन्दी टेक्स्ट)" ++ Py.dq ++ "."
  ++ Py.nl ++ "    5. Structure Output: The final output MUST be a single, valid JSON object."
  ++ Py.nl ++ "    6. CRITICAL RULE - Each object in the " ++ Py.dq ++ "questions" ++ Py.dq ++ " array MUST have:"
  ++ Py.nl ++ "       - a non-empty " ++ Py.dq ++ "questionText" ++ Py.dq ++ " (the actual question, not the options or answers),"
  ++ Py.nl ++ "       - an array of 4 " ++ Py.dq ++ "options" ++ Py.dq ++ ","
  ++ Py.nl ++ "       - and a " ++ Py.dq ++ "correctOptionIndex" ++ Py.dq ++ "."
  ++ Py.nl ++ "       The 'questionText' field must contain the full question. Do NOT leave it empty, do NOT repeat the options or answers in this field. If you cannot comply, return an error message in the 'questionText' field."
  ++ Py.nl ++ "    7. DOUBLE-CHECK: For each question, ensure that the answer at 'correctOptionIndex' is truly the correct answer for the question and options provided. Do not make mistakes in answer marking. If unsure, return an error message in the 'questionText' field."
  ++ Py.nl ++ "    8. For each question, add a brief explanation (in English) of why the correct answer is correct, in an 'explanation' field."
  ++ Py.nl ++ "    Generate the full mock test now."
  ++ Py.nl ++ "    ".

Definition paper_prompt (exam_name duration question_count : json) : string :=
  let prompt := prompt_opening exam_name in
  let prompt :=
    if Py.truthy question_count then prompt ++ count_override question_count
    else prompt in
  let prompt := prompt ++ prompt_content_rule in
  let prompt :=
    if Py.truthy duration then prompt ++ duration_override duration
    else prompt in
  prompt ++ prompt_closing.

Definition schema : json :=
  JObj
    [ ("type", JStr "OBJECT");
      ("properties",
        JObj
          [ ("title", JObj [("type", JStr "STRING")]);
            ("duration", JObj [("type", JStr "NUMBER")]);
            ("questions",
              JObj
                [ ("type", JStr "ARRAY");
                  ("items",
                    JObj
                      [ ("type", JStr "OBJECT");
                        ("properties",
                          JObj
                            [ ("questionText", JObj [("type", JStr "STRING")]);
                              ("options",
                                JObj [ ("type", JStr "ARRAY");
                                       ("items", JObj [("type", JStr "STRING")]) ]);
                              ("correctOptionIndex",
                                JObj [("type", JStr "NUMBER")]);
                              ("explanation", JObj [("type", JStr "STRING")]) ]);
                        ("required",
                          JArr [ JStr "questionText"; JStr "options";
                                 JStr "correctOptionIndex"; JStr "explanation" ]) ]) ]) ]);
      ("required", JArr [JStr "title"; JStr "duration"; JStr "questions"]) ].

Definition payload_for (prompt : string) : json :=
  JObj
    [ ("contents", JArr [JObj [("parts", JArr [JObj [("text", JStr prompt)]])]]);
      ("generationConfig",
        JObj [ ("responseMimeType", JStr "application/json");
               ("responseSchema", schema) ]) ].

(** Lines 123-172 of [generate_paper]: from the request body to the payload
    sent to the provider. *)
Definition paper_request (data : json) : outcome json :=
  let? exam_name := Py.get data "examName" (JStr EmptyString) in
  let? duration := Py.get data "duration" JNull in
  let? question_count := Py.get data "questionCount" JNull in
  let prompt := paper_prompt exam_name duration question_count in
  Return (payload_for prompt).

(** *** Validation of what the gateway returned *)

(** [v.strip()] and [v.split('(')] are methods of str alone. *)
Definition strip_method (v : json) : outcome string :=
  match v with
  | JStr s => Return (Py.strip s)
  | _ => Raise (AttributeError (Py.type_name v) "strip")
  end.

Definition split_method (v : json) : outcome unit :=
  match v with
  | JStr _ => Return tt
  | _ => Raise (AttributeError (Py.type_name v) "split")
  end.

(** [not q.get("questionText") or not q["questionText"].strip()] *)
Definition missing_questionText (q : json) : outcome bool :=
  let? questionText := Py.get q "questionText" JNull in
  if negb (Py.truthy questionText) then Return true
  else
    let? questionText := Py.getitem_str q "questionText" in
    let? stripped := strip_method questionText in
    Return (negb (Py.truthy (JStr stripped))).

(** [not isinstance(correct_idx, int) or correct_idx < 0
     or correct_idx >= len(options)] *)
Definition out_of_range (correct_idx options : json) : outcome bool :=
  match Py.isinstance_int correct_idx with
  | None => Return true
  | Some i =>
      if i <? 0 then Return true
      else let? n := Py.len options in Return (n <=? i)
  end.

(** [isinstance(correct_idx, int) and 0 <= correct_idx < len(options)] *)
Definition in_range (correct_idx options : json) : outcome bool :=
  match Py.isinstance_int correct_idx with
  | None => Return false
  | Some i =>
      if 0 <=? i then let? n := Py.len options in Return (i <? n)
      else Return false
  end.

(** The best-effort look at the marked option.  It takes
    [options[correct_idx].split('(')[0].strip().lower()] and compares it with
    the question text, but the branch that comparison guards is [pass]: all
    that can be seen of it is whether taking the option's text raises. *)
Definition answer_heuristic (correct_idx options : json) : outcome unit :=
  let? inside := in_range correct_idx options in
  if inside then
    match Py.isinstance_int correct_idx with
    | Some i =>
        let? option := Py.getitem_int options i correct_idx in
        split_method option
    | None => Return tt
    end
  else Return tt.

Definition out_of_range_warning (idx : Z) (correct_idx : json) : string :=
  "Question " ++ Py.str_of_int (idx + 1) ++ ": correctOptionIndex "
  ++ Py.str correct_idx ++ " is out of range.".

(** What one turn of the loop does with question [q] at position [idx]. *)
Inductive verdict : Type :=
| MissingText
| Checked (warning : option string).

Definition check_question (idx : Z) (q : json) : outcome verdict :=
  let? missing := missing_questionText q in
  if missing then Return MissingText
  else
    let? options := Py.get q "options" (JArr []) in
    let? correct_idx := Py.get q "correctOptionIndex" JNull in
    let? outside := out_of_range correct_idx options in
    let warning :=
      if outside then Some (out_of_range_warning idx correct_idx) else None in
    let? _ := answer_heuristic correct_idx options in
    Return (Checked warning).

Definition append_warning (warnings : list string) (w : option string)
    : list string :=
  match w with
  | Some text => (warnings ++ [text])%list
  | None => warnings
  end.

(** The [for idx, q in enumerate(...)] loop from position [idx] on: [None]
    when it left through the early [return], else the warnings gathered. *)
Fixpoint scan_questions (idx : Z) (qs : list json) (warnings : list string)
    : outcome (option (list string)) :=
  match qs with
  | [] => Return (Some warnings)
  | q :: rest =>
      let? v := check_question idx q in
      match v with
      | MissingText => Return None
      | Checked w => scan_questions (idx + 1) rest (append_warning warnings w)
      end
  end.

Definition missing_text_payload (result : json) : json :=
  JObj [ ("error",
           JStr "AI response missing questionText in one or more questions.");
         ("raw_response", result) ].

(** [result["warnings"] = warnings] *)
Definition attach_warnings (result : json) (warnings : list string)
    : outcome json :=
  match result with
  | JObj d => Return (JObj (Py.dict_set "warnings" (JArr (map JStr warnings)) d))
  | _ => Raise (TypeError "setitem" (Py.type_name result))
  end.

(** Lines 175-194 of [generate_paper]. *)
Definition validate_paper (result : json) : outcome json :=
  let? questions := Py.get result "questions" (JArr []) in
  let? qs := Py.iter questions in
  let? scanned := scan_questions 0 qs [] in
  match scanned with
  | None => Return (missing_text_payload result)
  | Some warnings =>
      if Py.truthy (JArr (map JStr warnings))
      then attach_warnings result warnings
      else Return result
  end.

Section Paper.

Variable API_KEY : string.
Variable requests_post : string -> json -> response + string.
Variable json_loads : string -> json + string.

Definition generate_paper (data : json) : M json :=
  payload <- lift (paper_request data) ;;
  result <- call_gemini_api API_KEY requests_post json_loads payload ;;
  lift (validate_paper result).

End Paper.

(** ** POST /api/parse-text and POST /api/generate-similar *)

(** The request bodies the two endpoints declare. *)
Module TextParseRequest.
Record t : Type := make { text : string }.
End TextParseRequest.

Module SimilarQuestionsRequest.
Record t : Type := make { questions : list dict }.
End SimilarQuestionsRequest.

(** [{"contents": [{"parts": [{"text": prompt}]}], "generationConfig": ...}],
    the payload all three endpoints build, each with its own schema. *)
Definition payload_with (prompt : string) (response_schema : json) : json :=
  JObj
    [ ("contents", JArr [JObj [("parts", JArr [JObj [("text", JStr prompt)]])]]);
      ("generationConfig",
        JObj [ ("responseMimeType", JStr "application/json");
               ("responseSchema", response_schema) ]) ].

Definition parse_text_prompt (text : string) : string :=
  Py.nl ++ "    You are an expert test creation and translation assistant. Analyze the following text."
  ++ Py.nl ++ "    Your tasks are:"
  ++ Py.nl ++ "    1. Extract: Extract the question text, options, and determine the correct answer (marked by '⭕' or '*')."
  ++ Py.nl ++ "    2. Translate: If content is only in English, translate it to Hindi."
  ++ Py.nl ++ "    3. Format: Combine into " ++ Py.dq ++ "English Text (हिन्दी टेक्स्ट)" ++ Py.dq ++ "."
  ++ Py.nl ++ "    4. Structure: Output a valid JSON array of objects."
  ++ Py.nl ++ "    5. Normalize: Ensure exactly 4 options and remove markers like '(A)'."
  ++ Py.nl ++ "    Now, parse:"
  ++ Py.nl ++ "    ---"
  ++ Py.nl ++ "    " ++ text
  ++ Py.nl ++ "    ---"
  ++ Py.nl ++ "    ".

Definition parse_text_schema : json :=
  JObj
    [ ("type", JStr "ARRAY");
      ("items",
        JObj
          [ ("type", JStr "OBJECT");
            ("properties",
              JObj
                [ ("questionText", JObj [("type", JStr "STRING")]);
                  ("options",
                    JObj [ ("type", JStr "ARRAY");
                           ("items", JObj [("type", JStr "STRING")]) ]);
                  ("correctOptionIndex", JObj [("type", JStr "NUMBER")]) ]);
            ("required",
              JArr [ JStr "questionText"; JStr "options";
                     JStr "correctOptionIndex" ]) ]) ].

(** The prompt of generate-similar around [dumped], the text
    [json.dumps(request.questions, indent=2)] gives. *)
Definition generate_similar_prompt (dumped : string) : string :=
  Py.nl ++ "    You are an expert question generator. Create a new set of multiple-choice questions similar in topic, style, and difficulty to the provided examples, but not identical."
  ++ Py.nl ++ "    Existing Questions (for context):"
  ++ Py.nl ++ "    " ++ dumped
  ++ Py.nl ++ "    Instructions:"
  ++ Py.nl ++ "    1. Analyze: Understand the subject, format, and difficulty."
  ++ Py.nl ++ "    2. Generate New Questions: Create the same number of new questions as provided."
  ++ Py.nl ++ "    3. Maintain Format: Each new question must be bilingual (English and Hindi) with 4 bilingual options."
  ++ Py.nl ++ "    4. Structure Output: The final output MUST be a valid JSON array of question objects."
  ++ Py.nl ++ "    5. For each question, add a brief explanation (in English) of why the correct answer is correct, in an 'explanation' field."
  ++ Py.nl ++ "    Generate the new, similar questions now."
  ++ Py.nl ++ "    ".

Definition generate_similar_schema : json :=
  JObj
    [ ("type", JStr "ARRAY");
      ("items",
        JObj
          [ ("type", JStr "OBJECT");
            ("properties",
              JObj
                [ ("questionText", JObj [("type", JStr "STRING")]);
                  ("options",
                    JObj [ ("type", JStr "ARRAY");
                           ("items", JObj [("type", JStr "STRING")]) ]);
                  ("correctOptionIndex", JObj [("type", JStr "NUMBER")]);
                  ("explanation", JObj [("type", JStr "STRING")]) ]);
            ("required",
              JArr [ JStr "questionText"; JStr "options";
                     JStr "correctOptionIndex"; JStr "explanation" ]) ]) ].

Section OtherEndpoints.

(** As for the gateway, and [json.dumps(v, indent=2)]. *)
Variable API_KEY : string.
Variable requests_post : string -> json -> response + string.
Variable json_loads : string -> json + string.
Variable json_dumps : json -> string.

Definition parse_text (request : TextParseRequest.t) : M json :=
  let prompt := parse_text_prompt (TextParseRequest.text request) in
  let payload := payload_with prompt parse_text_schema in
  call_gemini_api API_KEY requests_post json_loads payload.

Definition generate_similar (request : SimilarQuestionsRequest.t) : M json :=
  let prompt :=
    generate_similar_prompt
      (json_dumps (JArr (map JObj (SimilarQuestionsRequest.questions request)))) in
  let payload := payload_with prompt generate_similar_schema in
  call_gemini_api API_KEY requests_post json_loads payload.

End OtherEndpoints.

(** * Vocabulary of the properties *)

(** ** Words for the document store *)

(** What a later [load_tests_from_db] sees. *)
Definition stored (w : world) : list dict :=
  match db w with
  | Holds tests => tests
  | Absent | Unreadable => []
  end.

Definition has_id (test_id : string) (t : dict) : Prop :=
  Py.lookup "id" t = Some (JStr test_id).

Definition after_delete (test_id : string) (w : world) : list dict :=
  stored (snd (delete_a_test test_id w)).

Definition deleted (test_id : string) : json :=
  JObj [("status", JStr "success"); ("deleted_id", JStr test_id)].

Definition saved (test : Test) : json :=
  JObj [("status", JStr "success"); ("test_id", JStr (id test))].

Definition error_line (msg : string) : event :=
  Printed [JStr ("Error saving to DB: " ++ msg)].

Definition twin_a : Test := mkTest "a" "Algebra" 30 [] "2024-01-01T10:00:00".
Definition twin_b : Test := mkTest "a" "Biology" 45 [] "2024-02-01T10:00:00".

Definition twins_world : world :=
  mkWorld (Holds [Test_dict twin_a; Test_dict twin_b]) DiskOk [].

Definition full_disk_world : world :=
  mkWorld (Holds [Test_dict twin_a]) (WriteFails "No space left on device") [].

(** [a] may stand before [b]: its key is not below. *)
Definition not_older (a b : dict) : Prop :=
  String.leb (key_text b) (key_text a) = true.

Definition with_key (k : string) (x : dict) : bool :=
  (key_text x =? k)%string.

Definition str_keys (tests : list dict) : Prop :=
  Forall (fun x => str_key x <> None) tests.

Definition newest_first (tests : list dict) : list dict :=
  fold_right insert_newest [] tests.

Definition exactly_one (x : dict) (l : list dict) : Prop :=
  exists pre post,
    l = (pre ++ x :: post)%list /\ ~ In x pre /\ ~ In x post.

Definition one_test_world : world :=
  mkWorld (Holds [Test_dict twin_a]) DiskOk [].

(** The [createdAt] of a stored record, read off the record itself: the
    string under that name, and the empty string when the name is not
    there. *)
Definition createdAt_or_empty (x : dict) : string :=
  match Py.lookup "createdAt" x with
  | Some (JStr s) => s
  | _ => EmptyString
  end.

(** [createdAt] is a string, or missing. *)
Definition createdAt_is_text (x : dict) : Prop :=
  match Py.lookup "createdAt" x with
  | Some (JStr _) | None => True
  | Some _ => False
  end.

(** [a] may stand before [b]: the [createdAt] of [b] is not above the one of
    [a] in the order of strings. *)
Definition newer_first (a b : dict) : Prop :=
  String.leb (createdAt_or_empty b) (createdAt_or_empty a) = true.

Definition created_at (s : string) (x : dict) : bool :=
  (createdAt_or_empty x =? s)%string.

Definition empty_or_missing (x : dict) : Prop :=
  Py.lookup "createdAt" x = None
  \/ Py.lookup "createdAt" x = Some (JStr EmptyString).

Definition mixed_world : world :=
  mkWorld
    (Holds [ Test_dict twin_a; [("id", JStr "c"); ("title", JStr "Chemistry")];
             Test_dict twin_b ])
    DiskOk [].

(** ** Words for the AI gateway *)

Definition configuration_error : exn :=
  HTTPException 500 "Google AI API Key is not set in main.py.".

Definition is_post (e : event) : bool :=
  match e with
  | Posted _ _ => true
  | _ => false
  end.

(** How many outbound calls a log holds. *)
Definition network_calls (w : world) : nat :=
  List.length (filter is_post (log w)).

Definition canned_provider (r : response) : string -> json -> response + string :=
  fun _ _ => inl r.

Definition no_parser : string -> json + string :=
  fun _ => inr "Expecting value: line 1 column 1 (char 0)".

Definition empty_world : world := mkWorld Absent DiskOk [].

Definition configured (API_KEY : string) : Prop :=
  API_KEY <> EmptyString /\ API_KEY <> "YOUR_API_KEY_HERE".

Definition malformed_response (e : exn) : exn :=
  HTTPException 500 ("Invalid response structure from AI: " ++ Py.str_exn e).

Definition envelope_with_text (s : string) : json :=
  JObj [ ("candidates",
           JArr [ JObj [ ("content",
                           JObj [("parts", JArr [JObj [("text", JStr s)]])]) ] ]) ].

Definition bare_envelope : json := JObj [].
Definition other_envelope : json := JObj [("modelVersion", JStr "gemini-2.0-flash")].

Definition error_for (envelope : json) : outcome json :=
  fst (call_gemini_api "k"
         (canned_provider (mkResponse 200 "x" (inl envelope)))
         no_parser JNull empty_world).

(** ** Words for the prompt builder *)

Definition count_directive (question_count : json) : string :=
  "Override: Generate exactly " ++ Py.str question_count ++ " questions".

Definition duration_directive (duration : json) : string :=
  "Override: Set the test duration to exactly " ++ Py.str duration ++ " minutes.".

(** The [required] list of the question items in a payload's schema. *)
Definition required_of_questions (payload : json) : outcome json :=
  let? config := Py.getitem_str payload "generationConfig" in
  let? schema := Py.getitem_str config "responseSchema" in
  let? properties := Py.getitem_str schema "properties" in
  let? questions := Py.getitem_str properties "questions" in
  let? items := Py.getitem_str questions "items" in
  Py.getitem_str items "required".

(** The prompt inside a payload. *)
Definition prompt_of (payload : json) : outcome json :=
  let? contents := Py.getitem_str payload "contents" in
  let? content := Py.getitem_int contents 0 (JInt 0) in
  let? parts := Py.getitem_str content "parts" in
  let? part := Py.getitem_int parts 0 (JInt 0) in
  Py.getitem_str part "text".

Definition dict_get (d : dict) (k : string) (default : json) : json :=
  match Py.lookup k d with
  | Some v => v
  | None => default
  end.

Definition sample_request : dict :=
  [("examName", JStr "Sample Exam"); ("questionCount", JInt 2)].

Definition zero_count_request : dict :=
  [("examName", JStr "Sample Exam"); ("questionCount", JInt 0);
   ("duration", JInt 0)].

(** ** Words for the response validator *)

(** Whenever the gateway hands [result] to the endpoint, the endpoint
    answers [answer] with status 200. *)
Definition endpoint_answers (result answer : json) : Prop :=
  forall (API_KEY : string)
         (requests_post : string -> json -> response + string)
         (json_loads : string -> json + string)
         (data payload : json) (w w' : world),
    paper_request data = Return payload ->
    call_gemini_api API_KEY requests_post json_loads payload w
    = (Return result, w') ->
    generate_paper API_KEY requests_post json_loads data w
    = (Return answer, w').

(** [questionText] absent, empty, or nothing but whitespace. *)
Definition lacks_text (q : json) : bool :=
  match q with
  | JObj f =>
      match Py.lookup "questionText" f with
      | None => true
      | Some (JStr s) => (Py.strip s =? EmptyString)%string
      | Some _ => false
      end
  | _ => false
  end.

Definition is_JStr (v : json) : bool :=
  match v with
  | JStr _ => true
  | _ => false
  end.

(** The types the response schema declares for a question, on the fields
    that are there: an object whose [questionText] is a string and whose
    [options] is an array of strings. *)
Definition well_typed_question (q : json) : bool :=
  match q with
  | JObj f =>
      match Py.lookup "questionText" f with
      | None | Some (JStr _) => true
      | Some _ => false
      end
      && match Py.lookup "options" f with
         | None => true
         | Some (JArr l) => forallb is_JStr l
         | Some _ => false
         end
  | _ => false
  end.

Definition index_of (q : json) : json :=
  match q with
  | JObj f => dict_get f "correctOptionIndex" JNull
  | _ => JNull
  end.

Definition options_of (q : json) : list json :=
  match q with
  | JObj f =>
      match Py.lookup "options" f with
      | Some (JArr l) => l
      | _ => []
      end
  | _ => []
  end.

(** The test the loop applies to an index against [n] options. *)
Definition outside (v : json) (n : Z) : bool :=
  match Py.isinstance_int v with
  | None => true
  | Some i => (i <? 0) || (n <=? i)
  end.

Definition verdict_of (idx : Z) (q : json) : verdict :=
  if lacks_text q then MissingText
  else Checked
         (if outside (index_of q) (Z.of_nat (List.length (options_of q)))
          then Some (out_of_range_warning idx (index_of q))
          else None).

Definition choices : json := JArr [JStr "A"; JStr "B"; JStr "C"; JStr "D"].

Definition good_question (text : string) (answer : json) : json :=
  JObj [ ("questionText", JStr text); ("options", choices);
         ("correctOptionIndex", answer); ("explanation", JStr "...") ].

Definition blank_question : json := good_question EmptyString (JInt 1).

Definition paper_with (qs : list json) : dict :=
  [ ("title", JStr "Sample Exam Mock Test"); ("duration", JInt 60);
    ("questions", JArr qs) ].

Definition null_options_question : json :=
  JObj [ ("questionText", JStr "Q1? (प्र1?)"); ("options", JNull);
         ("correctOptionIndex", JInt 0); ("explanation", JStr "...") ].

(** Not an integer, or outside [0, n-1]. *)
Definition bad_index (v : json) (n : Z) : bool :=
  match v with
  | JInt i => negb ((0 <=? i) && (i <=? n - 1))
  | _ => true
  end.

Definition flagged (q : json) : bool :=
  bad_index (index_of q) (Z.of_nat (List.length (options_of q))).

Definition index_not_bool (q : json) : bool :=
  match index_of q with
  | JBool _ => false
  | _ => true
  end.

Definition warning_text (position : Z) (value : json) : string :=
  "Question " ++ Py.str_of_int position ++ ": correctOptionIndex "
  ++ Py.str value ++ " is out of range.".

(** One warning for each flagged question, the first question of [qs]
    standing at [position]. *)
Fixpoint warnings_from (position : Z) (qs : list json) : list string :=
  match qs with
  | [] => []
  | q :: rest =>
      ((if flagged q then [warning_text position (index_of q)] else [])
       ++ warnings_from (position + 1) rest)%list
  end.

Definition with_warnings (d : dict) (warnings : list string) : json :=
  match warnings with
  | [] => JObj d
  | _ :: _ => JObj (Py.dict_set "warnings" (JArr (map JStr warnings)) d)
  end.

Definition sound_question (q : json) : Prop :=
  well_typed_question q = true
  /\ lacks_text q = false
  /\ index_not_bool q = true.

Definition two_flagged : list json :=
  [ good_question "Q1? (प्र1?)" (JInt 5);
    good_question "Q2? (प्र2?)" (JInt 1);
    good_question "Q3? (प्र3?)" (JFloat "2.0") ].

Definition numbered_options_question : json :=
  JObj [ ("questionText", JStr "Q1? (प्र1?)");
         ("options", JArr [JInt 1; JInt 2; JInt 3; JInt 4]);
         ("correctOptionIndex", JInt 0); ("explanation", JStr "...") ].

Definition sample_paper : json :=
  JObj (paper_with [ good_question "Q1? (प्र1?)" (JInt 0);
                     good_question "Q2? (प्र2?)" (JInt 1) ]).

Definition sample_loads (s : string) : json + string :=
  if (s =? "PAPER")%string then inl sample_paper
  else inr "Expecting value: line 1 column 1 (char 0)".

Definition sample_provider : string -> json -> response + string :=
  canned_provider (mkResponse 200 "PAPER" (inl (envelope_with_text "PAPER"))).

(** ** Words for the further properties *)

(** The key check as the gateway makes it. *)
Definition key_missing (API_KEY : string) : bool :=
  negb (Py.truthy (JStr API_KEY)) || (API_KEY =? "YOUR_API_KEY_HERE")%string.

Definition provider_error (r : response) : exn :=
  HTTPException (status_code r) ("API call failed: " ++ text r).

Definition overloaded_reply : response :=
  mkResponse 503 "The model is overloaded." (inr "Expecting value").

Definition blocked_error (reason : json) : exn :=
  HTTPException 400 ("Request blocked by API: " ++ Py.str reason).

Definition blocked_envelope : dict :=
  [ ("promptFeedback", JObj [("blockReason", JStr "SAFETY")]);
    ("candidates",
      JArr [ JObj [ ("content",
                      JObj [("parts", JArr [JObj [("text", JStr "PAPER")]])]) ] ]) ].

Definition numeric_text_envelope : json :=
  JObj [ ("candidates",
           JArr [ JObj [ ("content",
                           JObj [("parts", JArr [JObj [("text", JInt 42)]])]) ] ]) ].

Definition html_reply : response :=
  mkResponse 200 "<html>gateway</html>"
    (inr "Expecting value: line 1 column 1 (char 0)").

Definition stored_after_write (tests : list dict) (w : world) : list dict :=
  match faults w with
  | DiskOk => tests
  | OpenFails _ => stored w
  | WriteFails _ => []
  end.

(** The requests that change the store, and a run of them. *)
Inductive request : Type :=
| PostTest (test : Test)
| DeleteTest (test_id : string).

Definition serve (r : request) (w : world) : world :=
  match r with
  | PostTest test => snd (save_new_test test w)
  | DeleteTest test_id => snd (delete_a_test test_id w)
  end.

(** The world with the disk in condition [f] for the write to come. *)
Definition on_disk (f : disk) (w : world) : world :=
  mkWorld (db w) f (log w).

(** A run in which every request meets a disk condition of its own. *)
Definition serve_on (step : disk * request) (w : world) : world :=
  serve (snd step) (on_disk (fst step) w).

Definition serve_run (steps : list (disk * request)) (w : world) : world :=
  fold_left (fun w' step => serve_on step w') steps w.

Definition mixed_run : list (disk * request) :=
  [ (DiskOk, PostTest twin_a);
    (OpenFails "Permission denied", PostTest twin_b);
    (DiskOk, PostTest twin_b);
    (WriteFails "No space left on device", DeleteTest "a");
    (DiskOk, PostTest twin_a) ].

Definition from_a_Test (x : dict) : Prop := exists test, x = Test_dict test.

Definition has_every_field (x : dict) : Prop :=
  (exists s, Py.lookup "id" x = Some (JStr s))
  /\ (exists s, Py.lookup "title" x = Some (JStr s))
  /\ (exists n, Py.lookup "duration" x = Some (JInt n))
  /\ (exists l, Py.lookup "questions" x = Some (JArr l))
  /\ (exists s, Py.lookup "createdAt" x = Some (JStr s)).

Definition flagged_paper : json :=
  JObj (Py.dict_set "warnings" (JArr (map JStr (warnings_from 1 two_flagged)))
          (paper_with two_flagged)).

(** What the loop makes of a [questions] value [v] that is not an array, in
    a response [d]. *)
Definition looping_over (v : json) (d : dict) : outcome json :=
  match v with
  | JStr EmptyString | JObj [] => Return (JObj d)
  | JStr _ | JObj _ => Raise (AttributeError "str" "get")
  | _ => Raise (TypeError "iter" (Py.type_name v))
  end.

Definition has_text (q : json) : Prop :=
  well_typed_question q = true /\ lacks_text q = false.

(** The ways a question can be of the wrong kind where its text is read. *)
Definition text_unreadable (q : json) : option exn :=
  match q with
  | JObj f =>
      match Py.lookup "questionText" f with
      | Some (JStr _) | None => None
      | Some v =>
          if Py.truthy v then Some (AttributeError (Py.type_name v) "strip")
          else None
      end
  | _ => Some (AttributeError (Py.type_name q) "get")
  end.

Definition falsy_or_absent (k : string) (d : dict) : Prop :=
  match Py.lookup k d with
  | Some v => Py.truthy v = false
  | None => True
  end.

Definition quiet (before after : world) : Prop :=
  db after = db before
  /\ faults after = faults before
  /\ (network_calls after <= S (network_calls before))%nat.

(** A stand-in for [json.dumps] where what it prints is not looked at. *)
Definition plain_dumps (v : json) : string := Py.repr v.

(** The [required] list of the items in a payload whose schema is an array. *)
Definition required_of_items (payload : json) : outcome json :=
  let? config := Py.getitem_str payload "generationConfig" in
  let? schema := Py.getitem_str config "responseSchema" in
  let? items := Py.getitem_str schema "items" in
  Py.getitem_str items "required".

Definition parse_text_payload (request : TextParseRequest.t) : json :=
  payload_with (parse_text_prompt (TextParseRequest.text request))
    parse_text_schema.

Definition generate_similar_payload (json_dumps : json -> string)
    (request : SimilarQuestionsRequest.t) : json :=
  payload_with
    (generate_similar_prompt
       (json_dumps (JArr (map JObj (SimilarQuestionsRequest.questions request)))))
    generate_similar_schema.

(** * Properties of the document store *)

Lemma load_reads_stored (w : world) :
  load_tests_from_db w = (Return (stored w), w).
Proof. reflexivity. Qed.

Lemma other_id_false (test_id : string) (t : dict) :
  other_id test_id t = false <-> has_id test_id t.
Proof.
  unfold other_id, has_id.
  destruct (Py.lookup "id" t) as [v|]; [destruct v|]; split; intro H;
    try discriminate.
  - apply negb_false_iff, String.eqb_eq in H. now subst.
  - inversion H; subst. now rewrite String.eqb_refl.
Qed.

Lemma filter_no_longer {A : Type} (f : A -> bool) (l : list A) :
  (List.length (filter f l) <= List.length l)%nat.
Proof.
  induction l as [|x l IH]; simpl; [lia|].
  destruct (f x); simpl; lia.
Qed.

Lemma filter_keeps_length {A : Type} (f : A -> bool) (l : list A) :
  List.length (filter f l) = List.length l <-> Forall (fun x => f x = true) l.
Proof.
  induction l as [|x l IH]; simpl.
  - split; auto.
  - destruct (f x) eqn:Hx; simpl.
    + split; intro H.
      * constructor; [assumption|]. apply IH. lia.
      * inversion H; subst. f_equal. now apply IH.
    + pose proof (filter_no_longer f l) as Hle. split; intro H; [lia|].
      inversion H; subst. congruence.
Qed.

Lemma no_match_all_other (test_id : string) (l : list dict) :
  ~ Exists (has_id test_id) l <-> Forall (fun t => other_id test_id t = true) l.
Proof.
  rewrite <- Forall_Exists_neg. split; apply Forall_impl; intros t H.
  - destruct (other_id test_id t) eqn:E; [reflexivity|].
    apply other_id_false in E. contradiction.
  - intro Hid. apply other_id_false in Hid. congruence.
Qed.

Lemma filter_all_true {A : Type} (f : A -> bool) (l : list A) :
  Forall (fun x => f x = true) l -> filter f l = l.
Proof.
  induction 1 as [|x l Hx _ IH]; simpl; [reflexivity|].
  now rewrite Hx, IH.
Qed.

Lemma save_on_good_disk (tests : list dict) (w : world) :
  faults w = DiskOk ->
  save_tests_to_db tests w
  = (Return tt, set_db (Holds tests) (record_event (OpenWrite DB_FILE) w)).
Proof.
  intro H. unfold save_tests_to_db, try_except, dump_tests. now rewrite H.
Qed.

Lemma save_when_open_fails (tests : list dict) (w : world) (msg : string) :
  faults w = OpenFails msg ->
  save_tests_to_db tests w
  = (Return tt,
     record_event (error_line msg) (record_event (OpenWrite DB_FILE) w)).
Proof.
  intro H. unfold save_tests_to_db, try_except, dump_tests. now rewrite H.
Qed.

Lemma save_when_write_fails (tests : list dict) (w : world) (msg : string) :
  faults w = WriteFails msg ->
  save_tests_to_db tests w
  = (Return tt,
     record_event (error_line msg)
       (set_db Unreadable (record_event (OpenWrite DB_FILE) w))).
Proof.
  intro H. unfold save_tests_to_db, try_except, dump_tests. now rewrite H.
Qed.

Lemma save_returns_None (tests : list dict) (w : world) :
  fst (save_tests_to_db tests w) = Return tt.
Proof.
  unfold save_tests_to_db, try_except, dump_tests.
  destruct (faults w); reflexivity.
Qed.

(** C1 (as the code has it): when some stored record carries the id and the
    file can be written, DELETE answers success and writes back the list with
    every record of that id filtered out, where the claim promised exactly
    one removal: the records with another id stay, in order and unchanged,
    and a record whose id is unique is the only one to go.  When no record
    carries the id the handler raises 404 and leaves the world as it was: the
    file is not opened for writing. *)
Theorem delete_a_test_filters_id (w : world) (test_id : string) :
  (Exists (has_id test_id) (stored w) -> faults w = DiskOk ->
     fst (delete_a_test test_id w) = Return (deleted test_id)
     /\ after_delete test_id w = filter (other_id test_id) (stored w)
     /\ (forall t, In t (after_delete test_id w)
                   <-> In t (stored w) /\ ~ has_id test_id t)
     /\ (forall pre t post,
           stored w = (pre ++ t :: post)%list -> has_id test_id t ->
           ~ Exists (has_id test_id) pre -> ~ Exists (has_id test_id) post ->
           after_delete test_id w = (pre ++ post)%list))
  /\ (~ Exists (has_id test_id) (stored w) ->
      delete_a_test test_id w = (Raise (HTTPException 404 "Test not found"), w)).
Proof.
  split.
  - intros Hex Hdisk.
    assert (Hlen : (List.length (filter (other_id test_id) (stored w))
                    =? List.length (stored w))%nat = false).
    { apply Nat.eqb_neq. intro Heq. apply filter_keeps_length in Heq.
      apply no_match_all_other in Heq. contradiction. }
    assert (Hrun : delete_a_test test_id w
                   = (Return (deleted test_id),
                      set_db (Holds (filter (other_id test_id) (stored w)))
                        (record_event (OpenWrite DB_FILE) w))).
    { unfold delete_a_test, bind. rewrite load_reads_stored, Hlen.
      rewrite save_on_good_disk by assumption. reflexivity. }
    unfold after_delete. rewrite Hrun. cbn [fst snd stored set_db db].
    split; [reflexivity|]. split; [reflexivity|]. split.
    + intro t. rewrite filter_In. split.
      * intros [Hin Hother]. split; [assumption|].
        intro Hid. apply other_id_false in Hid. congruence.
      * intros [Hin Hid]. split; [assumption|].
        destruct (other_id test_id t) eqn:E; [reflexivity|].
        apply other_id_false in E. contradiction.
    + intros pre t post Hst Hid Hpre Hpost. rewrite Hst, filter_app. simpl.
      apply other_id_false in Hid. rewrite Hid.
      apply no_match_all_other, filter_all_true in Hpre, Hpost.
      now rewrite Hpre, Hpost.
  - intro Hno. apply no_match_all_other in Hno.
    unfold delete_a_test, bind. rewrite load_reads_stored.
    rewrite (filter_all_true _ _ Hno), Nat.eqb_refl. reflexivity.
Qed.

Lemma delete_a_test_filters_id_witness :
  after_delete "a" twins_world = filter (other_id "a") (stored twins_world)
  /\ delete_a_test "b" twins_world
     = (Raise (HTTPException 404 "Test not found"), twins_world).
Proof.
  destruct (delete_a_test_filters_id twins_world "a") as [Hpresent _].
  destruct (delete_a_test_filters_id twins_world "b") as [_ Habsent].
  split.
  - apply Hpresent; [left; reflexivity | reflexivity].
  - apply Habsent. apply no_match_all_other.
    repeat constructor.
Defined.

(** C1 as stated fails: two stored records share the id "a"; DELETE removes
    both, so what is left is not the store with exactly one record taken
    out. *)
Lemma delete_a_test_removes_both_twins :
  Exists (has_id "a") (stored twins_world)
  /\ after_delete "a" twins_world = []
  /\ ~ (exists pre t post,
          stored twins_world = (pre ++ t :: post)%list
          /\ has_id "a" t
          /\ after_delete "a" twins_world = (pre ++ post)%list).
Proof.
  split; [left; reflexivity|]. split; [reflexivity|].
  intros (pre & t & post & Hst & _ & Hafter).
  change (after_delete "a" twins_world) with (@nil dict) in Hafter.
  symmetry in Hafter. apply app_eq_nil in Hafter. destruct Hafter; subst.
  discriminate Hst.
Qed.

(** On a disk that refuses the write, DELETE still answers success and the
    record is still there. *)
Example delete_on_read_only_disk :
  delete_a_test "a"
    (mkWorld (Holds [Test_dict twin_a]) (OpenFails "Permission denied") [])
  = (Return (deleted "a"),
     mkWorld (Holds [Test_dict twin_a]) (OpenFails "Permission denied")
       [ OpenWrite DB_FILE;
         Printed [JStr "Error saving to DB: Permission denied"] ]).
Proof. reflexivity. Qed.

(** C9: POST /api/tests answers success whatever happens to the file.  The
    save itself returns normally on every disk state, and when opening or
    writing the file fails the appended list is not what ends up stored: the
    only trace is the line printed to the console. *)
Theorem save_new_test_hides_write_failure (test : Test) (w : world) :
  fst (save_new_test test w) = Return (saved test)
  /\ (forall tests, fst (save_tests_to_db tests w) = Return tt)
  /\ (forall msg,
        faults w = OpenFails msg \/ faults w = WriteFails msg ->
        stored (snd (save_new_test test w)) <> (stored w ++ [Test_dict test])%list
        /\ log (snd (save_new_test test w))
           = (log w ++ [ OpenWrite DB_FILE;
                         Printed [JStr ("Error saving to DB: " ++ msg)] ])%list).
Proof.
  split; [|split].
  - unfold save_new_test, bind. rewrite load_reads_stored.
    unfold save_tests_to_db, try_except, dump_tests.
    destruct (faults w); reflexivity.
  - intro tests. apply save_returns_None.
  - intros msg Hfault.
    unfold save_new_test, bind. rewrite load_reads_stored.
    destruct Hfault as [Hf | Hf].
    + rewrite (save_when_open_fails _ _ _ Hf).
      cbn [fst snd ret log record_event set_db db stored faults].
      rewrite <- app_assoc. split; [|reflexivity].
      intro Heq. apply (f_equal (@List.length dict)) in Heq.
      change (stored (record_event _ (record_event _ w))) with (stored w) in Heq.
      rewrite length_app in Heq. simpl in Heq. lia.
    + rewrite (save_when_write_fails _ _ _ Hf).
      cbn [fst snd ret log record_event set_db db stored faults].
      rewrite <- app_assoc. split; [|reflexivity].
      intro Heq. symmetry in Heq. apply app_eq_nil in Heq.
      destruct Heq; discriminate.
Qed.

Lemma save_new_test_hides_write_failure_witness :
  fst (save_new_test twin_b full_disk_world) = Return (saved twin_b)
  /\ stored (snd (save_new_test twin_b full_disk_world))
     <> (stored full_disk_world ++ [Test_dict twin_b])%list.
Proof.
  destruct (save_new_test_hides_write_failure twin_b full_disk_world)
    as (Hans & _ & Hfail).
  split; [exact Hans|].
  apply (Hfail "No space left on device"). right. reflexivity.
Defined.

(** ** Order of strings *)

Lemma ascii_compare_lt_trans (a b c : ascii) :
  Ascii.compare a b = Lt -> Ascii.compare b c = Lt -> Ascii.compare a c = Lt.
Proof.
  unfold Ascii.compare. rewrite !N.compare_lt_iff. apply N.lt_trans.
Qed.

Lemma compare_lt_trans (s1 : string) :
  forall s2 s3 : string,
    String.compare s1 s2 = Lt -> String.compare s2 s3 = Lt ->
    String.compare s1 s3 = Lt.
Proof.
  induction s1 as [|a s1 IH]; intros [|b s2] [|c s3]; simpl;
    try discriminate; try reflexivity.
  destruct (Ascii.compare a b) eqn:Hab; try discriminate;
    destruct (Ascii.compare b c) eqn:Hbc; try discriminate; intros H1 H2.
  - apply Ascii.compare_eq_iff in Hab, Hbc. subst.
    replace (Ascii.compare c c) with Eq.
    + now apply IH with s2.
    + unfold Ascii.compare. now rewrite N.compare_refl.
  - apply Ascii.compare_eq_iff in Hab. subst. now rewrite Hbc.
  - apply Ascii.compare_eq_iff in Hbc. subst. now rewrite Hab.
  - now rewrite (ascii_compare_lt_trans _ _ _ Hab Hbc).
Qed.

Lemma ltb_leb (s1 s2 : string) :
  String.ltb s1 s2 = true -> String.leb s1 s2 = true.
Proof.
  unfold String.ltb, String.leb. now destruct (String.compare s1 s2).
Qed.

Lemma not_ltb_leb (s1 s2 : string) :
  String.ltb s1 s2 = false -> String.leb s2 s1 = true.
Proof.
  unfold String.ltb, String.leb. rewrite (String.compare_antisym s2 s1).
  now destruct (String.compare s1 s2).
Qed.

Lemma leb_not_ltb (s1 s2 : string) :
  String.leb s2 s1 = true -> String.ltb s1 s2 = false.
Proof.
  unfold String.ltb, String.leb. rewrite (String.compare_antisym s2 s1).
  now destruct (String.compare s1 s2).
Qed.

Lemma leb_trans (s1 s2 s3 : string) :
  String.leb s1 s2 = true -> String.leb s2 s3 = true ->
  String.leb s1 s3 = true.
Proof.
  intros H12 H23. apply not_ltb_leb.
  destruct (String.ltb s3 s1) eqn:H31; [exfalso | reflexivity].
  unfold String.ltb in H31.
  destruct (String.compare s3 s1) eqn:C31; try discriminate.
  unfold String.leb in H12, H23.
  destruct (String.compare s1 s2) eqn:C12; try discriminate.
  - apply String.compare_eq_iff in C12. subst.
    rewrite String.compare_antisym, C31 in H23. discriminate.
  - pose proof (compare_lt_trans _ _ _ C31 C12) as C32.
    rewrite String.compare_antisym, C32 in H23. discriminate.
Qed.

Lemma leb_empty (s : string) : String.leb EmptyString s = true.
Proof. now destruct s. Qed.

Lemma leb_below_empty (s : string) :
  String.leb s EmptyString = true -> s = EmptyString.
Proof. destruct s; [reflexivity | discriminate]. Qed.

(** ** The order GET /api/tests returns *)

Lemma insert_newest_perm (x : dict) (l : list dict) :
  Permutation (x :: l) (insert_newest x l).
Proof.
  induction l as [|y l IH]; simpl; [reflexivity|].
  destruct (String.ltb (key_text x) (key_text y)); [|reflexivity].
  rewrite perm_swap. now apply perm_skip.
Qed.

Lemma insert_newest_sorted (x : dict) (l : list dict) :
  StronglySorted not_older l -> StronglySorted not_older (insert_newest x l).
Proof.
  induction 1 as [|y l Hs IH Hall]; simpl.
  - repeat constructor.
  - destruct (String.ltb (key_text x) (key_text y)) eqn:Hlt.
    + constructor; [assumption|].
      apply (Permutation_Forall (insert_newest_perm x l)).
      constructor; [|assumption]. now apply ltb_leb.
    + apply not_ltb_leb in Hlt.
      constructor; [now constructor|].
      constructor; [assumption|].
      eapply Forall_impl; [|exact Hall].
      intros z Hz. unfold not_older in *. now apply leb_trans with (key_text y).
Qed.

Lemma insert_newest_stable (k : string) (x : dict) (l : list dict) :
  filter (with_key k) (insert_newest x l) = filter (with_key k) (x :: l).
Proof.
  induction l as [|y l IH]; [reflexivity|].
  cbn [insert_newest].
  destruct (String.ltb (key_text x) (key_text y)) eqn:Hlt; [|reflexivity].
  cbn [filter] in *. rewrite IH.
  unfold with_key.
  destruct (key_text x =? k)%string eqn:Hx; [|reflexivity].
  destruct (key_text y =? k)%string eqn:Hy; [|reflexivity].
  apply String.eqb_eq in Hx, Hy. rewrite Hx, Hy in Hlt.
  unfold String.ltb in Hlt.
  destruct (String.compare k k) eqn:C; try discriminate.
  pose proof (String.compare_antisym k k) as Anti. rewrite C in Anti.
  discriminate.
Qed.

Lemma newest_first_perm (l : list dict) : Permutation l (newest_first l).
Proof.
  induction l as [|x l IH]; simpl; [constructor|].
  rewrite <- insert_newest_perm. now apply perm_skip.
Qed.

Lemma newest_first_sorted (l : list dict) :
  StronglySorted not_older (newest_first l).
Proof.
  induction l as [|x l IH]; simpl; [constructor|].
  now apply insert_newest_sorted.
Qed.

Lemma newest_first_stable (k : string) (l : list dict) :
  filter (with_key k) (newest_first l) = filter (with_key k) l.
Proof.
  induction l as [|x l IH]; [reflexivity|].
  cbn [newest_first fold_right]. rewrite insert_newest_stable.
  cbn [filter]. fold (newest_first l). now rewrite IH.
Qed.

Lemma sort_of_str_keys (l : list dict) :
  str_keys l -> sort_newest_first l = Some (newest_first l).
Proof.
  intro H. unfold sort_newest_first.
  replace (forallb _ l) with true; [reflexivity|].
  symmetry. apply forallb_forall. intros x Hx.
  unfold str_keys in H. rewrite Forall_forall in H. specialize (H x Hx).
  now destruct (str_key x).
Qed.

Lemma missing_createdAt_key (x : dict) :
  Py.lookup "createdAt" x = None -> key_text x = EmptyString.
Proof.
  intro H. unfold key_text, str_key, createdAt_key. now rewrite H.
Qed.

Lemma key_text_is_the_field (x : dict) : key_text x = createdAt_or_empty x.
Proof.
  unfold key_text, str_key, createdAt_key, createdAt_or_empty.
  destruct (Py.lookup "createdAt" x) as [v|]; [now destruct v | reflexivity].
Qed.

Lemma text_fields_are_str_keys (l : list dict) :
  Forall createdAt_is_text l -> str_keys l.
Proof.
  apply Forall_impl. intro x.
  unfold createdAt_is_text, str_key, createdAt_key.
  destruct (Py.lookup "createdAt" x) as [v|]; [|discriminate].
  destruct v; try contradiction. discriminate.
Qed.

Lemma sorted_by_key_is_sorted_by_field (l : list dict) :
  StronglySorted not_older l -> StronglySorted newer_first l.
Proof.
  induction 1 as [|x l _ IH Hall]; constructor; [exact IH|].
  eapply Forall_impl; [|exact Hall].
  intros y Hy. unfold not_older in Hy. unfold newer_first.
  now rewrite <- !key_text_is_the_field.
Qed.

Lemma with_key_is_created_at (k : string) (l : list dict) :
  filter (with_key k) l = filter (created_at k) l.
Proof.
  apply filter_ext. intro x. unfold with_key, created_at.
  now rewrite key_text_is_the_field.
Qed.

(** C4: on a stored list whose [createdAt] values are strings or missing,
    GET /api/tests returns the stored records rearranged so that no record
    stands before one whose [createdAt] field is greater (strings compared
    byte by byte, which is the order of their code points, a missing field
    counting as the empty string); records with the same [createdAt] keep
    the order they were stored in; and behind a record without the field
    there are only records whose [createdAt] is missing or empty. *)
Theorem get_all_tests_newest_first (w : world) :
  Forall createdAt_is_text (stored w) ->
  exists out,
    get_all_tests w = Some out
    /\ Permutation (stored w) out
    /\ StronglySorted newer_first out
    /\ (forall s, filter (created_at s) out = filter (created_at s) (stored w))
    /\ (forall pre x post,
          out = (pre ++ x :: post)%list ->
          Py.lookup "createdAt" x = None ->
          Forall empty_or_missing post).
Proof.
  intro Htext. pose proof (text_fields_are_str_keys _ Htext) as Hkeys.
  exists (newest_first (stored w)).
  split.
  { unfold get_all_tests. rewrite load_reads_stored.
    now apply sort_of_str_keys. }
  split; [apply newest_first_perm|].
  split; [apply sorted_by_key_is_sorted_by_field, newest_first_sorted|].
  split.
  { intro s. rewrite <- !with_key_is_created_at. apply newest_first_stable. }
  intros pre x post Hout Hmiss.
  assert (Hall : Forall createdAt_is_text post).
  { rewrite Forall_forall in *. intros y Hy. apply Htext.
    apply (Permutation_in _ (Permutation_sym (newest_first_perm (stored w)))).
    rewrite Hout. apply in_or_app. right. now right. }
  pose proof (sorted_by_key_is_sorted_by_field _ (newest_first_sorted (stored w)))
    as Hs.
  rewrite Hout in Hs. clear Hout.
  induction pre as [|p pre IH]; simpl in Hs.
  - inversion Hs as [|? ? _ Hafter]; subst.
    rewrite Forall_forall in *. intros y Hy.
    specialize (Hafter y Hy). specialize (Hall y Hy).
    unfold newer_first, createdAt_or_empty in Hafter. rewrite Hmiss in Hafter.
    apply leb_below_empty in Hafter.
    unfold createdAt_is_text in Hall. unfold empty_or_missing.
    destruct (Py.lookup "createdAt" y) as [v|]; [|now left].
    destruct v; try contradiction. right. now rewrite Hafter.
  - inversion Hs; subst. now apply IH.
Qed.

Lemma leb_refl (s : string) : String.leb s s = true.
Proof.
  unfold String.leb. pose proof (String.compare_antisym s s) as H.
  destruct (String.compare s s); try reflexivity; discriminate H.
Qed.

Lemma head_not_older (x : dict) (l : list dict) (y : dict) :
  StronglySorted not_older (x :: l) -> In y (x :: l) -> not_older x y.
Proof.
  intros Hs [<- | Hin].
  - apply leb_refl.
  - inversion Hs as [|? ? _ Hall]; subst.
    rewrite Forall_forall in Hall. now apply Hall.
Qed.

Lemma with_key_own (x : dict) : with_key (key_text x) x = true.
Proof. apply String.eqb_refl. Qed.

(** A sorted list is determined by what it holds under each key, in order:
    whatever stable sort produced it, the outcome is the same. *)
Lemma stable_sorted_unique (l1 : list dict) :
  forall l2 : list dict,
    StronglySorted not_older l1 -> StronglySorted not_older l2 ->
    (forall k, filter (with_key k) l1 = filter (with_key k) l2) ->
    l1 = l2.
Proof.
  induction l1 as [|x t1 IH]; intros [|y t2] Hs1 Hs2 Hsame.
  - reflexivity.
  - specialize (Hsame (key_text y)). cbn [filter] in Hsame.
    rewrite with_key_own in Hsame. discriminate.
  - specialize (Hsame (key_text x)). cbn [filter] in Hsame.
    rewrite with_key_own in Hsame. discriminate.
  - assert (Hx : In x (y :: t2)).
    { pose proof (Hsame (key_text x)) as H. cbn [filter] in H.
      rewrite with_key_own in H.
      assert (Hin : In x (filter (with_key (key_text x)) (y :: t2))).
      { cbn [filter]. rewrite <- H. left. reflexivity. }
      apply filter_In in Hin. tauto. }
    assert (Hy : In y (x :: t1)).
    { pose proof (Hsame (key_text y)) as H. cbn [filter] in H.
      rewrite (with_key_own y) in H.
      assert (Hin : In y (filter (with_key (key_text y)) (x :: t1))).
      { cbn [filter]. rewrite H. left. reflexivity. }
      apply filter_In in Hin. tauto. }
    assert (Hkey : key_text x = key_text y).
    { apply String.leb_antisym.
      - exact (head_not_older y t2 x Hs2 Hx).
      - exact (head_not_older x t1 y Hs1 Hy). }
    assert (Hhead : x = y /\ forall k, filter (with_key k) t1
                                      = filter (with_key k) t2).
    { pose proof (Hsame (key_text x)) as H. cbn [filter] in H.
      rewrite with_key_own in H. rewrite Hkey in H at 2.
      rewrite with_key_own in H. injection H as Hxy Hrest.
      split; [exact Hxy|]. subst y. intro k.
      pose proof (Hsame k) as Hk. cbn [filter] in Hk.
      destruct (with_key k x) eqn:E; [now injection Hk | exact Hk]. }
    destruct Hhead as [-> Htail]. f_equal.
    inversion Hs1; inversion Hs2; subst. now apply IH.
Qed.

Lemma newest_first_is_the_stable_sort (l out : list dict) :
  StronglySorted not_older out ->
  (forall k, filter (with_key k) out = filter (with_key k) l) ->
  out = newest_first l.
Proof.
  intros Hs Hstable. apply stable_sorted_unique.
  - exact Hs.
  - apply newest_first_sorted.
  - intro k. now rewrite Hstable, newest_first_stable.
Qed.

(** Every list the handlers write has string keys: the records POST appends
    come from a [Test], and DELETE only drops records. *)
Lemma str_keys_after_post (test : Test) (w : world) :
  str_keys (stored w) -> str_keys (stored (snd (save_new_test test w))).
Proof.
  intro H. unfold save_new_test, bind. rewrite load_reads_stored.
  unfold save_tests_to_db, try_except, dump_tests.
  destruct (faults w); cbn [fst snd stored set_db db record_event print ret].
  - apply Forall_app. split; [exact H|].
    constructor; [discriminate | constructor].
  - exact H.
  - constructor.
Qed.

Lemma str_keys_after_delete (test_id : string) (w : world) :
  str_keys (stored w) -> str_keys (after_delete test_id w).
Proof.
  intro H. unfold after_delete, delete_a_test, bind.
  rewrite load_reads_stored.
  destruct (_ =? _)%nat; [exact H|].
  unfold save_tests_to_db, try_except, dump_tests.
  destruct (faults w); cbn [fst snd stored set_db db record_event print ret].
  - unfold str_keys in *. rewrite Forall_forall in *.
    intros x Hx. apply filter_In in Hx. now apply H.
  - exact H.
  - constructor.
Qed.

Lemma get_all_tests_newest_first_witness :
  exists out,
    get_all_tests mixed_world = Some out /\ StronglySorted newer_first out.
Proof.
  destruct (get_all_tests_newest_first mixed_world) as (out & Hget & _ & Hs & _).
  - repeat constructor.
  - exists out. split; assumption.
Defined.

(** Three stored records, the middle one without [createdAt]: it comes out
    last, and the newer of the other two first. *)
Example get_all_tests_missing_key_last :
  get_all_tests
    (mkWorld (Holds [ Test_dict twin_a; [("id", JStr "c")]; Test_dict twin_b ])
       DiskOk [])
  = Some [ Test_dict twin_b; Test_dict twin_a; [("id", JStr "c")] ].
Proof. reflexivity. Qed.

(** ** POST then GET *)

Lemma insert_newest_around (y x : dict) (pre post : list dict) :
  StronglySorted not_older (pre ++ x :: post) ->
  exists pre' post',
    insert_newest y (pre ++ x :: post) = (pre' ++ x :: post')%list
    /\ insert_newest y (pre ++ post) = (pre' ++ post')%list.
Proof.
  induction pre as [|p pre IH]; intro Hs.
  - cbn [app insert_newest].
    destruct (String.ltb (key_text y) (key_text x)) eqn:Hyx.
    + exists [], (insert_newest y post). split; reflexivity.
    + exists [y], post. split; [reflexivity|].
      destruct post as [|z post]; [reflexivity|].
      cbn [app insert_newest].
      replace (String.ltb (key_text y) (key_text z)) with false; [reflexivity|].
      symmetry. apply leb_not_ltb.
      apply leb_trans with (key_text x); [|now apply not_ltb_leb].
      simpl in Hs. inversion Hs as [|? ? _ Hall]; subst.
      inversion Hall; subst. assumption.
  - cbn [app insert_newest].
    destruct (String.ltb (key_text y) (key_text p)) eqn:Hyp.
    + simpl in Hs. inversion Hs as [|? ? Hs' _]; subst.
      destruct (IH Hs') as (pre' & post' & I1 & I0).
      exists (p :: pre'), post'. cbn [app]. now rewrite I1, I0.
    + exists (y :: p :: pre), post. split; reflexivity.
Qed.

Lemma newest_first_snoc (l : list dict) (x : dict) :
  exists pre post,
    newest_first (l ++ [x]) = (pre ++ x :: post)%list
    /\ newest_first l = (pre ++ post)%list.
Proof.
  induction l as [|y l IH].
  - exists [], []. split; reflexivity.
  - destruct IH as (pre & post & H1 & H0).
    pose proof (newest_first_sorted (l ++ [x])) as Hs. rewrite H1 in Hs.
    destruct (insert_newest_around y x pre post Hs) as (pre' & post' & I1 & I0).
    exists pre', post'. cbn [app newest_first fold_right].
    fold (newest_first (l ++ [x])). fold (newest_first l).
    now rewrite H1, H0.
Qed.

Lemma stored_after_post (test : Test) (w : world) :
  faults w = DiskOk ->
  stored (snd (save_new_test test w)) = (stored w ++ [Test_dict test])%list.
Proof.
  intro Hdisk. unfold save_new_test, bind. rewrite load_reads_stored.
  now rewrite save_on_good_disk.
Qed.

(** C5 (as the code has it): after a POST whose write succeeded, GET returns
    what it returned before with one more record, equal to the posted one,
    put in at its place in the order; that record is the only one equal to
    it when no equal record was stored already.  Nothing makes it the only
    one otherwise. *)
Theorem post_then_get_adds_one (test : Test) (w : world) :
  faults w = DiskOk ->
  str_keys (stored w) ->
  exists pre post,
    get_all_tests (snd (save_new_test test w))
    = Some (pre ++ Test_dict test :: post)%list
    /\ get_all_tests w = Some (pre ++ post)%list
    /\ (~ In (Test_dict test) (stored w) ->
        exactly_one (Test_dict test) (pre ++ Test_dict test :: post)%list).
Proof.
  intros Hdisk Hkeys.
  destruct (newest_first_snoc (stored w) (Test_dict test))
    as (pre & post & H1 & H0).
  exists pre, post. split; [|split].
  - unfold get_all_tests. rewrite load_reads_stored.
    rewrite stored_after_post by assumption.
    rewrite sort_of_str_keys.
    + now rewrite H1.
    + apply Forall_app. split; [assumption|].
      constructor; [discriminate | constructor].
  - unfold get_all_tests. rewrite load_reads_stored.
    rewrite sort_of_str_keys by assumption. now rewrite H0.
  - intro Hnew. exists pre, post. split; [reflexivity|].
    assert (Hin : forall t, In t (pre ++ post)%list -> In t (stored w)).
    { intros t Ht. rewrite <- H0 in Ht.
      apply (Permutation_in _ (Permutation_sym (newest_first_perm (stored w)))).
      exact Ht. }
    split; intro Hx; apply Hnew, Hin, in_or_app; [left | right]; assumption.
Qed.

Lemma post_then_get_adds_one_witness :
  exists pre post,
    get_all_tests (snd (save_new_test twin_b one_test_world))
    = Some (pre ++ Test_dict twin_b :: post)%list
    /\ get_all_tests one_test_world = Some (pre ++ post)%list.
Proof.
  destruct (post_then_get_adds_one twin_b one_test_world)
    as (pre & post & Hafter & Hbefore & _).
  - reflexivity.
  - repeat constructor; discriminate.
  - exists pre, post. split; assumption.
Defined.

(** C5 as stated fails: the store already holds a record equal to the one
    posted; POST appends a second copy, and GET returns both. *)
Lemma post_twice_get_two :
  get_all_tests (snd (save_new_test twin_a one_test_world))
  = Some [Test_dict twin_a; Test_dict twin_a]
  /\ ~ exactly_one (Test_dict twin_a) [Test_dict twin_a; Test_dict twin_a].
Proof.
  split; [reflexivity|].
  intros (pre & post & Heq & Hpre & Hpost).
  destruct pre as [|p pre].
  - injection Heq as Hpost'. subst post. apply Hpost. left. reflexivity.
  - injection Heq as Hp _. apply Hpre. left. now symmetry.
Qed.

(** * Properties of the AI gateway *)

(** C6: with no key pasted in (the empty string, or the placeholder), the
    gateway raises the 500 about the missing key and the world is exactly as
    before: nothing was posted, the count of network calls has not moved. *)
Theorem call_gemini_api_needs_key
    (API_KEY : string) (requests_post : string -> json -> response + string)
    (json_loads : string -> json + string) (payload : json) (w : world) :
  API_KEY = EmptyString \/ API_KEY = "YOUR_API_KEY_HERE" ->
  call_gemini_api API_KEY requests_post json_loads payload w
  = (Raise configuration_error, w)
  /\ network_calls
       (snd (call_gemini_api API_KEY requests_post json_loads payload w))
     = network_calls w.
Proof.
  intros [Hkey | Hkey]; subst API_KEY; split; reflexivity.
Qed.

Lemma call_gemini_api_needs_key_witness :
  call_gemini_api EmptyString
    (canned_provider (mkResponse 200 "{}" (inl (JObj [])))) no_parser
    (payload_for "hello") empty_world
  = (Raise configuration_error, empty_world).
Proof.
  apply (call_gemini_api_needs_key EmptyString
           (canned_provider (mkResponse 200 "{}" (inl (JObj [])))) no_parser
           (payload_for "hello") empty_world).
  left. reflexivity.
Defined.

Lemma configured_passes_check (API_KEY : string) :
  configured API_KEY ->
  negb (Py.truthy (JStr API_KEY)) || (API_KEY =? "YOUR_API_KEY_HERE")%string
  = false.
Proof.
  intros [Hne Hph]. apply orb_false_iff. split.
  - simpl. rewrite negb_involutive. now apply String.eqb_neq.
  - now apply String.eqb_neq.
Qed.

(** With a key in place the first thing the gateway does is post. *)
Lemma call_gemini_api_posts_first
    (API_KEY : string) (requests_post : string -> json -> response + string)
    (json_loads : string -> json + string) (payload : json) (w : world) :
  configured API_KEY ->
  exists later,
    log (snd (call_gemini_api API_KEY requests_post json_loads payload w))
    = (log w ++ Posted (API_URL API_KEY) payload :: later)%list.
Proof.
  intro Hkey. unfold call_gemini_api.
  rewrite (configured_passes_check _ Hkey).
  unfold bind, post, raise, lift, try_except, print.
  destruct (requests_post (API_URL API_KEY) payload) as [r | msg];
    [|exists []; reflexivity].
  destruct (negb (status_code r =? 200)); [exists []; reflexivity|].
  destruct (response_json r) as [result | e]; [|exists []; reflexivity].
  destruct (block_reason_present result) as [[|] | e]; cbn [fst snd];
    try (eexists; cbn [log record_event]; rewrite <- app_assoc; reflexivity).
  - destruct (let? feedback := Py.getitem_str result "promptFeedback" in
              Py.getitem_str feedback "blockReason");
      eexists; cbn [snd log record_event]; rewrite <- app_assoc; reflexivity.
  - destruct (let? json_text := json_text_of result in loads json_loads json_text)
      as [parsed | e].
    + eexists; cbn [snd log record_event]; rewrite <- app_assoc; reflexivity.
    + destruct (caught_by_gateway e);
        eexists; cbn [snd log record_event]; rewrite <- !app_assoc; reflexivity.
Qed.

(** C7 (as the code has it): a reply with status 200 and no block reason,
    from which taking [candidates[0].content.parts[0].text] and decoding it
    raises a KeyError, an IndexError or a JSONDecodeError, ends in a 500
    whose detail is the fixed message followed by the text of that cause.
    The envelope is printed to the console, once as received and once with
    the parsing error; the exception raised does not carry it. *)
Theorem call_gemini_api_malformed
    (API_KEY : string) (requests_post : string -> json -> response + string)
    (json_loads : string -> json + string) (payload : json) (w : world)
    (r : response) (envelope : json) (e : exn) :
  configured API_KEY ->
  requests_post (API_URL API_KEY) payload = inl r ->
  status_code r = 200 ->
  json_body r = inl envelope ->
  block_reason_present envelope = Return false ->
  (let? json_text := json_text_of envelope in loads json_loads json_text)
  = Raise e ->
  caught_by_gateway e = true ->
  call_gemini_api API_KEY requests_post json_loads payload w
  = (Raise (malformed_response e),
     mkWorld (db w) (faults w)
       (log w ++ [ Posted (API_URL API_KEY) payload;
                   Printed [JStr "Gemini API raw response:"; envelope];
                   Printed [JStr "Error parsing Gemini response:"; envelope] ])%list).
Proof.
  intros Hkey Hpost Hstatus Hbody Hblock Hextract Hcaught.
  unfold call_gemini_api. rewrite (configured_passes_check _ Hkey).
  unfold bind, post, raise, lift, try_except, print, response_json.
  rewrite Hpost, Hstatus, Hbody. cbn [Z.eqb Pos.eqb negb].
  rewrite Hblock, Hextract, Hcaught.
  unfold record_event. cbn [db faults log]. rewrite <- !app_assoc.
  reflexivity.
Qed.

(** Three ways of missing the text, each caught. *)
Lemma missing_candidates (json_loads : string -> json + string) (d : dict) :
  Py.lookup "candidates" d = None ->
  (let? json_text := json_text_of (JObj d) in loads json_loads json_text)
  = Raise (KeyError (JStr "candidates")).
Proof.
  intro H. unfold json_text_of. cbn [Py.getitem_str and_then]. now rewrite H.
Qed.

Lemma no_candidate (json_loads : string -> json + string) :
  (let? json_text := json_text_of (JObj [("candidates", JArr [])]) in
   loads json_loads json_text)
  = Raise (IndexError "list index out of range").
Proof. reflexivity. Qed.

Lemma text_not_json (json_loads : string -> json + string) (s msg : string) :
  json_loads s = inr msg ->
  (let? json_text := json_text_of (envelope_with_text s) in
   loads json_loads json_text)
  = Raise (JSONDecodeError msg).
Proof. intro H. cbn. now rewrite H. Qed.

(** Wrong nesting of another kind is not among the exceptions the handler
    names: [candidates] being null raises a TypeError that leaves the gateway
    as it is, without the second print. *)
Example null_candidates_escape :
  call_gemini_api "k"
    (canned_provider
       (mkResponse 200 "x" (inl (JObj [("candidates", JNull)]))))
    no_parser JNull empty_world
  = (Raise (TypeError "subscript" "NoneType"),
     mkWorld Absent DiskOk
       [ Posted (API_URL "k") JNull;
         Printed [ JStr "Gemini API raw response:";
                   JObj [("candidates", JNull)] ] ]).
Proof. reflexivity. Qed.

Lemma call_gemini_api_malformed_witness :
  error_for bare_envelope
  = Raise (malformed_response (KeyError (JStr "candidates"))).
Proof.
  unfold error_for.
  rewrite (call_gemini_api_malformed "k"
             (canned_provider (mkResponse 200 "x" (inl bare_envelope)))
             no_parser JNull empty_world
             (mkResponse 200 "x" (inl bare_envelope)) bare_envelope
             (KeyError (JStr "candidates"))).
  - reflexivity.
  - split; discriminate.
  - reflexivity.
  - reflexivity.
  - reflexivity.
  - reflexivity.
  - reflexivity.
  - reflexivity.
Defined.

(** C7 as stated fails: two different envelopes that both lack [candidates]
    are answered with one and the same exception, whose detail is
    "Invalid response structure from AI: 'candidates'".  No reading of that
    exception gives back the envelope that caused it. *)
Lemma malformed_error_omits_envelope :
  error_for bare_envelope = error_for other_envelope
  /\ bare_envelope <> other_envelope
  /\ error_for bare_envelope
     = Raise (HTTPException 500
                "Invalid response structure from AI: 'candidates'")
  /\ ~ (exists envelope_of : exn -> json,
          forall envelope e,
            error_for envelope = Raise e -> envelope_of e = envelope).
Proof.
  split; [reflexivity|]. split; [discriminate|]. split; [reflexivity|].
  intros (envelope_of & Hrec).
  pose proof (Hrec bare_envelope _ eq_refl) as H1.
  pose proof (Hrec other_envelope _ eq_refl) as H2.
  cbv in H1, H2. rewrite H1 in H2. discriminate H2.
Qed.

(** * Properties of the prompt builder *)

Lemma starts_with_append (t rest : string) :
  Py.starts_with t (t ++ rest) = true.
Proof.
  induction t as [|a t IH]; simpl; [reflexivity|].
  now rewrite Ascii.eqb_refl.
Qed.

Lemma occurs_in_suffix (t before s : string) :
  Py.occurs_in t s = true -> Py.occurs_in t (before ++ s) = true.
Proof.
  intro H. induction before as [|a before IH]; [exact H|].
  cbn [String.append Py.occurs_in]. rewrite IH. apply orb_true_r.
Qed.

Lemma occurs_in_middle (t before rest : string) :
  Py.occurs_in t (before ++ t ++ rest) = true.
Proof.
  apply occurs_in_suffix.
  destruct (t ++ rest) eqn:E; cbn [Py.occurs_in]; rewrite <- E;
    now rewrite starts_with_append.
Qed.

Lemma starts_with_prefix (t : string) :
  forall s rest : string,
    Py.starts_with t s = true -> Py.starts_with t (s ++ rest) = true.
Proof.
  induction t as [|b t IH]; intros s rest H; [reflexivity|].
  destruct s as [|a s]; [discriminate|].
  cbn [String.append Py.starts_with] in *.
  apply andb_true_iff in H. destruct H as [Hab H].
  now rewrite Hab, IH.
Qed.

Lemma occurs_in_prefix (t s rest : string) :
  Py.occurs_in t s = true -> Py.occurs_in t (s ++ rest) = true.
Proof.
  induction s as [|a s IH]; intro H.
  - destruct t; [now destruct rest | discriminate].
  - cbn [String.append Py.occurs_in] in *.
    apply orb_true_iff in H. destruct H as [H | H].
    + pose proof (starts_with_prefix _ (String a s) rest H) as Hs.
      cbn [String.append] in Hs. now rewrite Hs.
    + rewrite (IH H). apply orb_true_r.
Qed.

Lemma append_assoc (a b c : string) : (a ++ b) ++ c = a ++ b ++ c.
Proof. induction a as [|x a IH]; simpl; [reflexivity | now rewrite IH]. Qed.

Lemma count_override_directive (v : json) :
  Py.occurs_in (count_directive v) (count_override v) = true.
Proof.
  replace (count_override v)
    with ((Py.nl ++ "    2a. ") ++ count_directive v
          ++ ", regardless of the official pattern.").
  - apply occurs_in_middle.
  - unfold count_override, count_directive. rewrite !append_assoc.
    reflexivity.
Qed.

Lemma duration_override_directive (v : json) :
  Py.occurs_in (duration_directive v) (duration_override v) = true.
Proof.
  replace (duration_override v)
    with ((Py.nl ++ "    3a. ") ++ duration_directive v ++ EmptyString).
  - apply occurs_in_middle.
  - unfold duration_override, duration_directive. rewrite !append_assoc.
    reflexivity.
Qed.

Lemma paper_prompt_count (exam_name duration question_count : json) :
  Py.truthy question_count = true ->
  Py.occurs_in (count_directive question_count)
    (paper_prompt exam_name duration question_count) = true.
Proof.
  intro Ht. unfold paper_prompt. rewrite Ht.
  apply occurs_in_prefix.
  destruct (Py.truthy duration); [apply occurs_in_prefix|];
    apply occurs_in_prefix, occurs_in_suffix, count_override_directive.
Qed.

Lemma paper_prompt_duration (exam_name duration question_count : json) :
  Py.truthy duration = true ->
  Py.occurs_in (duration_directive duration)
    (paper_prompt exam_name duration question_count) = true.
Proof.
  intro Ht. unfold paper_prompt. rewrite Ht.
  apply occurs_in_prefix, occurs_in_suffix, duration_override_directive.
Qed.

(** C8 (as the code has it): for a request body that is an object, the
    payload is built without error; its prompt holds the directive
    "Override: Generate exactly N questions" whenever [questionCount] is a
    truthy value N, which for an integer means any but 0, and the directive
    "Override: Set the test duration to exactly D minutes." whenever
    [duration] is a truthy value D; the question items of its schema require
    exactly questionText, options, correctOptionIndex and explanation. *)
Theorem paper_request_overrides (d : dict) :
  exists prompt,
    paper_request (JObj d) = Return (payload_for prompt)
    /\ prompt_of (payload_for prompt) = Return (JStr prompt)
    /\ (forall v, Py.lookup "questionCount" d = Some v ->
                  Py.truthy v = true ->
                  Py.occurs_in (count_directive v) prompt = true)
    /\ (forall n, Py.lookup "questionCount" d = Some (JInt n) -> n <> 0 ->
                  Py.occurs_in
                    ("Override: Generate exactly " ++ Py.str_of_int n
                     ++ " questions") prompt = true)
    /\ (forall v, Py.lookup "duration" d = Some v ->
                  Py.truthy v = true ->
                  Py.occurs_in (duration_directive v) prompt = true)
    /\ (forall n, Py.lookup "duration" d = Some (JInt n) -> n <> 0 ->
                  Py.occurs_in
                    ("Override: Set the test duration to exactly "
                     ++ Py.str_of_int n ++ " minutes.") prompt = true)
    /\ required_of_questions (payload_for prompt)
       = Return (JArr [ JStr "questionText"; JStr "options";
                        JStr "correctOptionIndex"; JStr "explanation" ]).
Proof.
  exists (paper_prompt (dict_get d "examName" (JStr EmptyString))
            (dict_get d "duration" JNull) (dict_get d "questionCount" JNull)).
  split; [reflexivity|]. split; [reflexivity|].
  assert (Hcount : forall v, Py.lookup "questionCount" d = Some v ->
                     Py.truthy v = true ->
                     Py.occurs_in (count_directive v)
                       (paper_prompt (dict_get d "examName" (JStr EmptyString))
                          (dict_get d "duration" JNull)
                          (dict_get d "questionCount" JNull)) = true).
  { intros v Hv Ht. unfold dict_get at 3. rewrite Hv.
    now apply paper_prompt_count. }
  assert (Hdur : forall v, Py.lookup "duration" d = Some v ->
                   Py.truthy v = true ->
                   Py.occurs_in (duration_directive v)
                     (paper_prompt (dict_get d "examName" (JStr EmptyString))
                        (dict_get d "duration" JNull)
                        (dict_get d "questionCount" JNull)) = true).
  { intros v Hv Ht. unfold dict_get at 2. rewrite Hv.
    now apply paper_prompt_duration. }
  split; [exact Hcount|]. split.
  { intros n Hn Hnz. apply (Hcount (JInt n) Hn).
    simpl. now apply negb_true_iff, Z.eqb_neq. }
  split; [exact Hdur|]. split.
  { intros n Hn Hnz. apply (Hdur (JInt n) Hn).
    simpl. now apply negb_true_iff, Z.eqb_neq. }
  reflexivity.
Qed.

Lemma paper_request_overrides_witness :
  exists prompt,
    paper_request (JObj sample_request) = Return (payload_for prompt)
    /\ Py.occurs_in "Override: Generate exactly 2 questions" prompt = true.
Proof.
  destruct (paper_request_overrides sample_request)
    as (prompt & Hreq & _ & _ & Hcount & _).
  exists prompt. split; [exact Hreq|].
  apply (Hcount 2); [reflexivity | discriminate].
Defined.

(** C8 as stated fails: [questionCount] and [duration] are both supplied,
    as 0; the prompt built holds no override at all, and is the prompt of a
    request that supplies neither. *)
Lemma zero_count_is_not_an_override :
  Py.lookup "questionCount" zero_count_request = Some (JInt 0)
  /\ Py.lookup "duration" zero_count_request = Some (JInt 0)
  /\ paper_request (JObj zero_count_request)
     = Return (payload_for (paper_prompt (JStr "Sample Exam") JNull JNull))
  /\ Py.occurs_in "Override"
       (paper_prompt (JStr "Sample Exam") JNull JNull) = false
  /\ ~ (exists prompt,
          paper_request (JObj zero_count_request) = Return (payload_for prompt)
          /\ Py.occurs_in (count_directive (JInt 0)) prompt = true).
Proof.
  split; [reflexivity|]. split; [reflexivity|]. split; [reflexivity|].
  split; [vm_compute; reflexivity|].
  intros (prompt & Hreq & Hocc).
  assert (Hp : prompt = paper_prompt (JStr "Sample Exam") JNull JNull).
  { change (paper_request (JObj zero_count_request))
      with (Return (payload_for (paper_prompt (JStr "Sample Exam") JNull JNull)))
      in Hreq.
    unfold payload_for in Hreq. now injection Hreq. }
  subst prompt. vm_compute in Hocc. discriminate Hocc.
Qed.

(** * Properties of the response validator *)

(** What the endpoint answers is the validation of what the gateway
    returned. *)
Lemma generate_paper_validates
    (API_KEY : string) (requests_post : string -> json -> response + string)
    (json_loads : string -> json + string)
    (data payload result : json) (w w' : world) :
  paper_request data = Return payload ->
  call_gemini_api API_KEY requests_post json_loads payload w
  = (Return result, w') ->
  generate_paper API_KEY requests_post json_loads data w
  = (validate_paper result, w').
Proof.
  intros Hreq Hcall. unfold generate_paper, bind, lift.
  now rewrite Hreq, Hcall.
Qed.

Lemma endpoint_answers_validated (result answer : json) :
  validate_paper result = Return answer -> endpoint_answers result answer.
Proof.
  intros Hv API_KEY requests_post json_loads data payload w w' Hreq Hcall.
  rewrite (generate_paper_validates _ _ _ _ _ _ _ _ Hreq Hcall).
  now rewrite Hv.
Qed.

Lemma missing_questionText_well_typed (f : dict) :
  well_typed_question (JObj f) = true ->
  missing_questionText (JObj f) = Return (lacks_text (JObj f)).
Proof.
  unfold well_typed_question, missing_questionText, lacks_text.
  cbn [Py.get Py.getitem_str and_then].
  destruct (Py.lookup "questionText" f) as [v|]; [|reflexivity].
  destruct v; try discriminate. intros _.
  cbn [Py.truthy]. destruct (s =? EmptyString)%string eqn:E.
  - apply String.eqb_eq in E. subst. reflexivity.
  - cbn [negb strip_method and_then Py.truthy]. now rewrite negb_involutive.
Qed.

Lemma out_of_range_list (v : json) (l : list json) :
  out_of_range v (JArr l) = Return (outside v (Z.of_nat (List.length l))).
Proof.
  unfold out_of_range, outside.
  destruct (Py.isinstance_int v) as [i|]; [|reflexivity].
  cbn [Py.len and_then]. now destruct (i <? 0).
Qed.

Lemma index_seq_in_range {A : Type} (l : list A) (i : Z) :
  0 <= i < Z.of_nat (List.length l) ->
  exists x, Py.index_seq l i = Some x /\ In x l.
Proof.
  intros [Hlo Hhi]. unfold Py.index_seq.
  replace (0 <=? i) with true by (symmetry; now apply Z.leb_le).
  replace (i <? Z.of_nat (List.length l)) with true
    by (symmetry; now apply Z.ltb_lt).
  cbn [andb].
  destruct (nth_error l (Z.to_nat i)) as [x|] eqn:E.
  - exists x. split; [reflexivity|]. now apply nth_error_In in E.
  - apply nth_error_None in E. lia.
Qed.

Lemma answer_heuristic_strings (v : json) (l : list json) :
  forallb is_JStr l = true -> answer_heuristic v (JArr l) = Return tt.
Proof.
  intro Hstr. unfold answer_heuristic, in_range.
  destruct (Py.isinstance_int v) as [i|]; [|reflexivity].
  destruct (0 <=? i) eqn:Hlo; [|reflexivity].
  cbn [Py.len and_then].
  destruct (i <? Z.of_nat (List.length l)) eqn:Hhi; [|reflexivity].
  apply Z.leb_le in Hlo. apply Z.ltb_lt in Hhi.
  destruct (index_seq_in_range l i (conj Hlo Hhi)) as (x & Hx & Hin).
  cbn [Py.getitem_int]. rewrite Hx. cbn [and_then].
  rewrite forallb_forall in Hstr. specialize (Hstr x Hin).
  now destruct x.
Qed.

Lemma check_question_well_typed (idx : Z) (q : json) :
  well_typed_question q = true ->
  check_question idx q = Return (verdict_of idx q).
Proof.
  destruct q as [| | | | | |f]; try discriminate. intro Hwt.
  unfold check_question, verdict_of.
  rewrite (missing_questionText_well_typed f Hwt). cbn [and_then].
  destruct (lacks_text (JObj f)); [reflexivity|].
  unfold well_typed_question in Hwt. apply andb_true_iff in Hwt.
  destruct Hwt as [_ Hopt].
  cbn [Py.get and_then index_of options_of]. unfold dict_get.
  destruct (Py.lookup "options" f) as [o|].
  - destruct o; try discriminate.
    rewrite out_of_range_list. cbn [and_then].
    now rewrite (answer_heuristic_strings _ _ Hopt).
  - rewrite out_of_range_list. cbn [and_then].
    now rewrite (answer_heuristic_strings _ [] eq_refl).
Qed.

Lemma check_question_lacks_text (idx : Z) (q : json) :
  lacks_text q = true -> check_question idx q = Return MissingText.
Proof.
  destruct q as [| | | | | |f]; try discriminate.
  unfold lacks_text, check_question, missing_questionText.
  cbn [Py.get Py.getitem_str and_then].
  destruct (Py.lookup "questionText" f) as [v|]; [|reflexivity].
  destruct v; try discriminate. intro Hblank.
  cbn [Py.truthy]. destruct (s =? EmptyString)%string; [reflexivity|].
  cbn [negb strip_method and_then Py.truthy]. rewrite Hblank. reflexivity.
Qed.

(** C2 (as the code has it): the response is an object whose [questions]
    array reaches a question without text, the questions in front of it
    being objects of the declared types (their marked answers may be
    anything, and so may every question behind it).  Then validation returns
    the two-field object [error], [raw_response], the latter being the whole
    response as parsed; there is no [warnings] field. *)
Theorem validate_paper_missing_text
    (d : dict) (before : list json) (q : json) (behind : list json) :
  Py.lookup "questions" d = Some (JArr (before ++ q :: behind)%list) ->
  Forall (fun p => well_typed_question p = true) before ->
  lacks_text q = true ->
  validate_paper (JObj d)
  = Return
      (JObj [ ("error",
                JStr "AI response missing questionText in one or more questions.");
              ("raw_response", JObj d) ])
  /\ endpoint_answers (JObj d)
       (JObj [ ("error",
                 JStr "AI response missing questionText in one or more questions.");
               ("raw_response", JObj d) ]).
Proof.
  intros Hqs Hbefore Hq.
  match goal with |- ?A /\ _ => assert (Hv : A) end;
    [|split; [exact Hv | exact (endpoint_answers_validated _ _ Hv)]].
  unfold validate_paper. cbn [Py.get and_then]. rewrite Hqs.
  cbn [Py.iter and_then].
  assert (Hscan : forall idx warnings,
             scan_questions idx (before ++ q :: behind)%list warnings
             = Return None).
  { clear Hqs. induction Hbefore as [|p before Hp _ IH]; intros idx warnings.
    - cbn [app scan_questions]. now rewrite (check_question_lacks_text idx q Hq).
    - cbn [app scan_questions]. rewrite (check_question_well_typed idx p Hp).
      cbn [and_then]. unfold verdict_of.
      destruct (lacks_text p); [reflexivity | apply IH]. }
  rewrite Hscan. reflexivity.
Qed.

Lemma validate_paper_missing_text_witness :
  validate_paper
    (JObj (paper_with [good_question "Q1? (प्र1?)" (JInt 7); blank_question;
                       JNull]))
  = Return
      (JObj [ ("error",
                JStr "AI response missing questionText in one or more questions.");
              ("raw_response",
                JObj (paper_with [good_question "Q1? (प्र1?)" (JInt 7);
                                  blank_question; JNull])) ]).
Proof.
  apply (validate_paper_missing_text _ [good_question "Q1? (प्र1?)" (JInt 7)]
           blank_question [JNull]).
  - reflexivity.
  - repeat constructor.
  - reflexivity.
Defined.

(** C2 as stated fails: the second question has an empty [questionText],
    but the first one, whose [options] is null, makes [len(options)] raise a
    TypeError before the loop gets there; the request ends in that exception
    and not in the error payload. *)
Lemma validate_paper_raises_before_blank :
  Exists (fun q => lacks_text q = true) [null_options_question; blank_question]
  /\ validate_paper (JObj (paper_with [null_options_question; blank_question]))
     = Raise (TypeError "len" "NoneType")
  /\ validate_paper (JObj (paper_with [null_options_question; blank_question]))
     <> Return (missing_text_payload
                  (JObj (paper_with [null_options_question; blank_question]))).
Proof.
  split; [right; left; reflexivity|].
  split; [reflexivity | discriminate].
Qed.

(** ** Warnings *)

Lemma outside_bad_index (v : json) (n : Z) :
  match v with JBool _ => False | _ => True end ->
  outside v n = bad_index v n.
Proof.
  destruct v; try reflexivity; [contradiction|]. intros _.
  unfold outside, bad_index. cbn [Py.isinstance_int].
  destruct (n0 <? 0) eqn:H1, (n <=? n0) eqn:H2, (0 <=? n0) eqn:H3,
    (n0 <=? n - 1) eqn:H4; try reflexivity; exfalso;
    repeat match goal with
           | H : (_ <? _) = true |- _ => apply Z.ltb_lt in H
           | H : (_ <? _) = false |- _ => apply Z.ltb_ge in H
           | H : (_ <=? _) = true |- _ => apply Z.leb_le in H
           | H : (_ <=? _) = false |- _ => apply Z.leb_gt in H
           end; lia.
Qed.

Lemma check_question_sound (idx : Z) (q : json) :
  sound_question q ->
  check_question idx q
  = Return (Checked (if flagged q
                     then Some (warning_text (idx + 1) (index_of q))
                     else None)).
Proof.
  intros (Hwt & Htext & Hbool).
  rewrite (check_question_well_typed idx q Hwt).
  unfold verdict_of, flagged. rewrite Htext.
  rewrite outside_bad_index; [reflexivity|].
  unfold index_not_bool in Hbool. now destruct (index_of q).
Qed.

Lemma scan_questions_sound (qs : list json) :
  Forall sound_question qs ->
  forall idx warnings,
    scan_questions idx qs warnings
    = Return (Some (warnings ++ warnings_from (idx + 1) qs)%list).
Proof.
  induction 1 as [|q qs Hq _ IH]; intros idx warnings.
  - cbn [scan_questions warnings_from]. now rewrite app_nil_r.
  - cbn [scan_questions warnings_from].
    rewrite (check_question_sound idx q Hq). cbn [and_then].
    rewrite IH. destruct (flagged q); cbn [append_warning app].
    + now rewrite <- app_assoc.
    + reflexivity.
Qed.

Lemma lookup_dict_set (k : string) (v : json) (d : dict) :
  Py.lookup k (Py.dict_set k v d) = Some v.
Proof.
  induction d as [|[k' v'] d IH]; cbn [Py.dict_set Py.lookup].
  - now rewrite String.eqb_refl.
  - destruct (k =? k')%string eqn:E; cbn [Py.lookup].
    + now rewrite String.eqb_refl.
    + now rewrite E.
Qed.

Lemma warnings_from_count (qs : list json) :
  forall position,
    List.length (warnings_from position qs) = List.length (filter flagged qs).
Proof.
  induction qs as [|q qs IH]; intro position; [reflexivity|].
  cbn [warnings_from filter]. rewrite length_app, IH.
  now destruct (flagged q).
Qed.

Lemma warnings_from_names (qs : list json) :
  forall position k q,
    nth_error qs k = Some q -> flagged q = true ->
    In (warning_text (position + Z.of_nat k) (index_of q))
       (warnings_from position qs).
Proof.
  induction qs as [|p qs IH]; intros position k q Hk Hq.
  - destruct k; discriminate.
  - cbn [warnings_from]. apply in_or_app. destruct k as [|k].
    + injection Hk as ->. left. rewrite Hq, Z.add_0_r. left. reflexivity.
    + right. replace (position + Z.of_nat (S k)) with (position + 1 + Z.of_nat k)
        by lia.
      now apply IH.
Qed.

(** C3 (as the code has it): the response is an object whose [questions]
    array holds objects of the declared types, each with a text that is not
    blank and a marked answer that is not a JSON boolean.  Then validation
    returns normally; every question whose [correctOptionIndex] is not an
    integer, or is one outside [0, len(options)-1], adds one warning, in
    the order of the questions, that names its position counted from 1 and
    the value found; if there is any warning the response comes back with
    its [warnings] field set to that list, and if there is none the response
    comes back as it was. *)
Theorem validate_paper_warnings (d : dict) (qs : list json) :
  Py.lookup "questions" d = Some (JArr qs) ->
  Forall sound_question qs ->
  validate_paper (JObj d) = Return (with_warnings d (warnings_from 1 qs))
  /\ endpoint_answers (JObj d) (with_warnings d (warnings_from 1 qs))
  /\ List.length (warnings_from 1 qs) = List.length (filter flagged qs)
  /\ (forall k q,
        nth_error qs k = Some q -> flagged q = true ->
        In (warning_text (1 + Z.of_nat k) (index_of q)) (warnings_from 1 qs))
  /\ (warnings_from 1 qs <> [] ->
      exists d',
        with_warnings d (warnings_from 1 qs) = JObj d'
        /\ Py.lookup "warnings" d'
           = Some (JArr (map JStr (warnings_from 1 qs))))
  /\ (warnings_from 1 qs = [] ->
      with_warnings d (warnings_from 1 qs) = JObj d).
Proof.
  intros Hqs Hsound.
  assert (Hv : validate_paper (JObj d)
               = Return (with_warnings d (warnings_from 1 qs))).
  { unfold validate_paper. cbn [Py.get and_then]. rewrite Hqs.
    cbn [Py.iter and_then]. rewrite (scan_questions_sound qs Hsound).
    cbn [and_then app Z.add].
    destruct (warnings_from 1 qs); reflexivity. }
  split; [exact Hv|]. split; [|split; [|split; [|split]]].
  - exact (endpoint_answers_validated _ _ Hv).
  - apply warnings_from_count.
  - intros k q. apply warnings_from_names.
  - intro Hne. destruct (warnings_from 1 qs) as [|w ws] eqn:E; [contradiction|].
    eexists. split; [reflexivity|]. apply lookup_dict_set.
  - intros ->. reflexivity.
Qed.

Lemma validate_paper_warnings_witness :
  validate_paper (JObj (paper_with two_flagged))
  = Return
      (JObj (paper_with two_flagged ++
             [ ("warnings",
                 JArr [ JStr "Question 1: correctOptionIndex 5 is out of range.";
                        JStr "Question 3: correctOptionIndex 2.0 is out of range." ]) ])%list).
Proof.
  destruct (validate_paper_warnings (paper_with two_flagged) two_flagged)
    as [Hrun _].
  - reflexivity.
  - repeat constructor.
  - exact Hrun.
Defined.

(** The scenario of the specification: two well-formed questions pass
    unmodified. *)
Example validate_paper_sample :
  validate_paper
    (JObj (paper_with [ good_question "Q1? (प्र1?)" (JInt 0);
                        good_question "Q2? (प्र2?)" (JInt 1) ]))
  = Return
      (JObj (paper_with [ good_question "Q1? (प्र1?)" (JInt 0);
                          good_question "Q2? (प्र2?)" (JInt 1) ])).
Proof. reflexivity. Qed.

(** C3 as stated fails: the only question has a text and an index within
    its four options, so no warning is due and the response should come
    back; but the options are numbers, and the look at the marked option
    calls [split] on one of them: the request ends in an AttributeError. *)
Lemma validate_paper_heuristic_raises :
  lacks_text numbered_options_question = false
  /\ flagged numbered_options_question = false
  /\ validate_paper (JObj (paper_with [numbered_options_question]))
     = Raise (AttributeError "int" "split")
  /\ ~ (exists returned,
          validate_paper (JObj (paper_with [numbered_options_question]))
          = Return returned).
Proof.
  split; [reflexivity|]. split; [reflexivity|]. split; [reflexivity|].
  intros (returned & H). discriminate H.
Qed.

(** A JSON [true] as the marked answer passes for the integer 1 and draws
    no warning. *)
Example validate_paper_boolean_index :
  validate_paper (JObj (paper_with [good_question "Q1? (प्र1?)" (JBool true)]))
  = Return (JObj (paper_with [good_question "Q1? (प्र1?)" (JBool true)])).
Proof. reflexivity. Qed.

(** A [warnings] field that came with the response stays when no warning is
    recorded. *)
Example validate_paper_keeps_foreign_warnings :
  validate_paper
    (JObj [ ("questions", JArr [good_question "Q1? (प्र1?)" (JInt 0)]);
            ("warnings", JArr [JStr "stale"]) ])
  = Return
      (JObj [ ("questions", JArr [good_question "Q1? (प्र1?)" (JInt 0)]);
              ("warnings", JArr [JStr "stale"]) ]).
Proof. reflexivity. Qed.

(** C10: a response object without [questions], or with an empty
    [questions] array, goes through validation untouched: it is returned as
    it came, with no error object and nothing attached. *)
Theorem validate_paper_no_questions (d : dict) :
  Py.lookup "questions" d = None \/ Py.lookup "questions" d = Some (JArr []) ->
  validate_paper (JObj d) = Return (JObj d)
  /\ endpoint_answers (JObj d) (JObj d).
Proof.
  intro Hnone.
  assert (Hv : validate_paper (JObj d) = Return (JObj d)).
  { destruct Hnone as [H | H]; unfold validate_paper;
      cbn [Py.get and_then]; rewrite H; reflexivity. }
  split; [exact Hv | exact (endpoint_answers_validated _ _ Hv)].
Qed.

Lemma validate_paper_no_questions_witness :
  validate_paper (JObj [("title", JStr "Sample Exam Mock Test")])
  = Return (JObj [("title", JStr "Sample Exam Mock Test")])
  /\ validate_paper (JObj (paper_with [])) = Return (JObj (paper_with [])).
Proof.
  split.
  - apply (validate_paper_no_questions [("title", JStr "Sample Exam Mock Test")]).
    left. reflexivity.
  - apply (validate_paper_no_questions (paper_with [])).
    right. reflexivity.
Defined.

(** ** The scenario of the specification, end to end *)

(** A request for two questions, a provider that returns two well-formed
    ones: the endpoint answers the paper as it came, after one post. *)
Example generate_paper_sample :
  fst (generate_paper "k" sample_provider sample_loads (JObj sample_request)
         empty_world)
  = Return sample_paper
  /\ network_calls
       (snd (generate_paper "k" sample_provider sample_loads
               (JObj sample_request) empty_world))
     = 1%nat.
Proof. split; vm_compute; reflexivity. Qed.


(** * Further properties of the AI gateway *)

Lemma network_calls_record (e : event) (w : world) :
  network_calls (record_event e w)
  = (network_calls w + (if is_post e then 1 else 0))%nat.
Proof.
  unfold network_calls, record_event. cbn [log].
  rewrite filter_app, length_app. cbn [filter].
  now destruct (is_post e).
Qed.

Ltac settle_world :=
  cbn [fst snd]; unfold raise, ret;
  cbn [fst snd];
  repeat rewrite network_calls_record;
  cbn [is_post db faults record_event];
  repeat split; try reflexivity; try lia.

Lemma call_gemini_api_footprint
    (API_KEY : string) (requests_post : string -> json -> response + string)
    (json_loads : string -> json + string) (payload : json) (w : world) :
  network_calls (snd (call_gemini_api API_KEY requests_post json_loads payload w))
  = (if key_missing API_KEY then network_calls w else S (network_calls w))
  /\ db (snd (call_gemini_api API_KEY requests_post json_loads payload w)) = db w
  /\ faults (snd (call_gemini_api API_KEY requests_post json_loads payload w))
     = faults w.
Proof.
  unfold call_gemini_api. fold (key_missing API_KEY).
  destruct (key_missing API_KEY); [settle_world|].
  unfold bind, post, lift, try_except, print.
  destruct (requests_post (API_URL API_KEY) payload) as [r | msg];
    [|settle_world].
  destruct (negb (status_code r =? 200)); [settle_world|].
  destruct (response_json r) as [result | e]; [|settle_world].
  destruct (block_reason_present result) as [[|] | e]; [| |settle_world].
  - destruct (let? feedback := Py.getitem_str result "promptFeedback" in
              Py.getitem_str feedback "blockReason"); settle_world.
  - destruct (let? json_text := json_text_of result in loads json_loads json_text)
      as [parsed | e]; [settle_world|].
    destruct (caught_by_gateway e); settle_world.
Qed.

(** X1: with a key in place, one invocation of the gateway makes exactly one
    network call, however the provider answers and however the answer is
    read: there is no retry.  The stored tests and the state of the disk are
    not touched. *)
Theorem call_gemini_api_posts_once
    (API_KEY : string) (requests_post : string -> json -> response + string)
    (json_loads : string -> json + string) (payload : json) (w : world) :
  configured API_KEY ->
  network_calls (snd (call_gemini_api API_KEY requests_post json_loads payload w))
  = S (network_calls w)
  /\ db (snd (call_gemini_api API_KEY requests_post json_loads payload w)) = db w
  /\ faults (snd (call_gemini_api API_KEY requests_post json_loads payload w))
     = faults w.
Proof.
  intro Hkey.
  destruct (call_gemini_api_footprint API_KEY requests_post json_loads payload w)
    as (Hcalls & Hdb & Hfaults).
  unfold key_missing in Hcalls.
  rewrite (configured_passes_check _ Hkey) in Hcalls.
  repeat split; assumption.
Qed.

Lemma call_gemini_api_posts_once_witness :
  network_calls (snd (call_gemini_api "k" sample_provider sample_loads
                        (payload_for "hello") empty_world))
  = 1%nat.
Proof.
  destruct (call_gemini_api_posts_once "k" sample_provider sample_loads
              (payload_for "hello") empty_world) as [Hcalls _].
  - split; discriminate.
  - exact Hcalls.
Defined.

(** X2: a reply whose status is not 200 is turned into an HTTP error with
    that same status and the reply's body text in the detail.  The body is
    never decoded and nothing is printed: the post is the only effect. *)
Theorem call_gemini_api_provider_error
    (API_KEY : string) (requests_post : string -> json -> response + string)
    (json_loads : string -> json + string) (payload : json) (w : world)
    (r : response) :
  configured API_KEY ->
  requests_post (API_URL API_KEY) payload = inl r ->
  status_code r <> 200 ->
  call_gemini_api API_KEY requests_post json_loads payload w
  = (Raise (provider_error r),
     record_event (Posted (API_URL API_KEY) payload) w).
Proof.
  intros Hkey Hpost Hstatus. unfold call_gemini_api.
  rewrite (configured_passes_check _ Hkey).
  unfold bind, post, raise. rewrite Hpost.
  apply Z.eqb_neq in Hstatus. now rewrite Hstatus.
Qed.

Lemma call_gemini_api_provider_error_witness :
  fst (call_gemini_api "k" (canned_provider overloaded_reply) no_parser
         (payload_for "hello") empty_world)
  = Raise (HTTPException 503 "API call failed: The model is overloaded.").
Proof.
  rewrite (call_gemini_api_provider_error "k" (canned_provider overloaded_reply)
             no_parser (payload_for "hello") empty_world overloaded_reply).
  - reflexivity.
  - split; discriminate.
  - reflexivity.
  - discriminate.
Defined.

(** X3: a 200 reply whose object carries [promptFeedback.blockReason] ends
    in a 400 naming the reason, whatever else the reply holds: candidates
    that would have parsed are not looked at.  The reply is printed once. *)
Theorem call_gemini_api_blocked
    (API_KEY : string) (requests_post : string -> json -> response + string)
    (json_loads : string -> json + string) (payload : json) (w : world)
    (r : response) (envelope feedback : dict) (reason : json) :
  configured API_KEY ->
  requests_post (API_URL API_KEY) payload = inl r ->
  status_code r = 200 ->
  json_body r = inl (JObj envelope) ->
  Py.lookup "promptFeedback" envelope = Some (JObj feedback) ->
  Py.lookup "blockReason" feedback = Some reason ->
  call_gemini_api API_KEY requests_post json_loads payload w
  = (Raise (blocked_error reason),
     record_event (Printed [JStr "Gemini API raw response:"; JObj envelope])
       (record_event (Posted (API_URL API_KEY) payload) w)).
Proof.
  intros Hkey Hpost Hstatus Hbody Hfeedback Hreason. unfold call_gemini_api.
  rewrite (configured_passes_check _ Hkey).
  unfold bind, post, raise, lift, print, response_json, block_reason_present.
  rewrite Hpost, Hstatus, Hbody. cbn [Z.eqb Pos.eqb negb].
  cbn [Py.contains Py.getitem_str and_then]. rewrite Hfeedback.
  cbn [Py.contains Py.getitem_str and_then]. rewrite Hreason.
  reflexivity.
Qed.

Lemma call_gemini_api_blocked_witness :
  fst (call_gemini_api "k"
         (canned_provider (mkResponse 200 "x" (inl (JObj blocked_envelope))))
         sample_loads (payload_for "hello") empty_world)
  = Raise (HTTPException 400 "Request blocked by API: SAFETY").
Proof.
  rewrite (call_gemini_api_blocked "k"
             (canned_provider (mkResponse 200 "x" (inl (JObj blocked_envelope))))
             sample_loads (payload_for "hello") empty_world
             (mkResponse 200 "x" (inl (JObj blocked_envelope)))
             blocked_envelope [("blockReason", JStr "SAFETY")] (JStr "SAFETY")).
  - reflexivity.
  - split; discriminate.
  - reflexivity.
  - reflexivity.
  - reflexivity.
  - reflexivity.
  - reflexivity.
Defined.

(** X4: a 200 reply without a block reason whose first candidate's first
    part holds a text that [json.loads] accepts: the gateway returns the
    decoded value as it is, of whatever shape, after one post and one
    print. *)
Theorem call_gemini_api_returns_parsed
    (API_KEY : string) (requests_post : string -> json -> response + string)
    (json_loads : string -> json + string) (payload : json) (w : world)
    (r : response) (envelope : json) (json_text : string) (parsed : json) :
  configured API_KEY ->
  requests_post (API_URL API_KEY) payload = inl r ->
  status_code r = 200 ->
  json_body r = inl envelope ->
  block_reason_present envelope = Return false ->
  json_text_of envelope = Return (JStr json_text) ->
  json_loads json_text = inl parsed ->
  call_gemini_api API_KEY requests_post json_loads payload w
  = (Return parsed,
     record_event (Printed [JStr "Gemini API raw response:"; envelope])
       (record_event (Posted (API_URL API_KEY) payload) w)).
Proof.
  intros Hkey Hpost Hstatus Hbody Hblock Htext Hloads. unfold call_gemini_api.
  rewrite (configured_passes_check _ Hkey).
  unfold bind, post, raise, lift, try_except, print, response_json.
  rewrite Hpost, Hstatus, Hbody. cbn [Z.eqb Pos.eqb negb].
  rewrite Hblock, Htext. cbn [and_then loads]. now rewrite Hloads.
Qed.

Lemma call_gemini_api_returns_parsed_witness :
  fst (call_gemini_api "k" sample_provider sample_loads (payload_for "hello")
         empty_world)
  = Return sample_paper.
Proof.
  rewrite (call_gemini_api_returns_parsed "k" sample_provider sample_loads
             (payload_for "hello") empty_world
             (mkResponse 200 "PAPER" (inl (envelope_with_text "PAPER")))
             (envelope_with_text "PAPER") "PAPER" sample_paper).
  - reflexivity.
  - split; discriminate.
  - reflexivity.
  - reflexivity.
  - reflexivity.
  - reflexivity.
  - reflexivity.
  - reflexivity.
Defined.

(** X5: the handler around the extraction names KeyError, IndexError and
    JSONDecodeError only.  Any other exception raised while taking the text
    or decoding it (a TypeError from subscripting null, a number or a string
    with a key, or from decoding a text that is not a string) leaves the
    gateway as it is: no 500 with the fixed message, no second print. *)
Theorem call_gemini_api_lets_others_through
    (API_KEY : string) (requests_post : string -> json -> response + string)
    (json_loads : string -> json + string) (payload : json) (w : world)
    (r : response) (envelope : json) (e : exn) :
  configured API_KEY ->
  requests_post (API_URL API_KEY) payload = inl r ->
  status_code r = 200 ->
  json_body r = inl envelope ->
  block_reason_present envelope = Return false ->
  (let? json_text := json_text_of envelope in loads json_loads json_text)
  = Raise e ->
  caught_by_gateway e = false ->
  call_gemini_api API_KEY requests_post json_loads payload w
  = (Raise e,
     record_event (Printed [JStr "Gemini API raw response:"; envelope])
       (record_event (Posted (API_URL API_KEY) payload) w)).
Proof.
  intros Hkey Hpost Hstatus Hbody Hblock Hextract Hcaught.
  unfold call_gemini_api. rewrite (configured_passes_check _ Hkey).
  unfold bind, post, raise, lift, try_except, print, response_json.
  rewrite Hpost, Hstatus, Hbody. cbn [Z.eqb Pos.eqb negb].
  now rewrite Hblock, Hextract, Hcaught.
Qed.

Lemma call_gemini_api_lets_others_through_witness :
  fst (call_gemini_api "k"
         (canned_provider (mkResponse 200 "x" (inl numeric_text_envelope)))
         sample_loads (payload_for "hello") empty_world)
  = Raise (TypeError "json.loads" "int").
Proof.
  rewrite (call_gemini_api_lets_others_through "k"
             (canned_provider (mkResponse 200 "x" (inl numeric_text_envelope)))
             sample_loads (payload_for "hello") empty_world
             (mkResponse 200 "x" (inl numeric_text_envelope))
             numeric_text_envelope (TypeError "json.loads" "int")).
  - reflexivity.
  - split; discriminate.
  - reflexivity.
  - reflexivity.
  - reflexivity.
  - reflexivity.
  - reflexivity.
  - reflexivity.
Defined.

(** X6: a 200 reply whose body is not JSON fails where [response.json()] is
    called, outside the handler: the decoder's error leaves the gateway
    unwrapped, and since the print comes after, the console shows nothing.
    The same decoder error on the inner text would have been turned into a
    500. *)
Theorem call_gemini_api_undecodable_body
    (API_KEY : string) (requests_post : string -> json -> response + string)
    (json_loads : string -> json + string) (payload : json) (w : world)
    (r : response) (msg : string) :
  configured API_KEY ->
  requests_post (API_URL API_KEY) payload = inl r ->
  status_code r = 200 ->
  json_body r = inr msg ->
  call_gemini_api API_KEY requests_post json_loads payload w
  = (Raise (JSONDecodeError msg),
     record_event (Posted (API_URL API_KEY) payload) w).
Proof.
  intros Hkey Hpost Hstatus Hbody. unfold call_gemini_api.
  rewrite (configured_passes_check _ Hkey).
  unfold bind, post, raise, lift, response_json.
  now rewrite Hpost, Hstatus, Hbody.
Qed.

Lemma call_gemini_api_undecodable_body_witness :
  fst (call_gemini_api "k" (canned_provider html_reply) no_parser
         (payload_for "hello") empty_world)
  = Raise (JSONDecodeError "Expecting value: line 1 column 1 (char 0)").
Proof.
  rewrite (call_gemini_api_undecodable_body "k" (canned_provider html_reply)
             no_parser (payload_for "hello") empty_world html_reply
             "Expecting value: line 1 column 1 (char 0)").
  - reflexivity.
  - split; discriminate.
  - reflexivity.
  - reflexivity.
  - reflexivity.
Defined.

(** * Further properties of the document store *)

Lemma save_effect (tests : list dict) (w : world) :
  stored (snd (save_tests_to_db tests w)) = stored_after_write tests w
  /\ faults (snd (save_tests_to_db tests w)) = faults w
  /\ fst (save_tests_to_db tests w) = Return tt.
Proof.
  unfold save_tests_to_db, try_except, dump_tests, stored_after_write.
  destruct (faults w) eqn:Hf; cbn; rewrite ?Hf; repeat split; reflexivity.
Qed.

Lemma post_effect (test : Test) (w : world) :
  stored (snd (save_new_test test w))
  = stored_after_write (stored w ++ [Test_dict test])%list w
  /\ faults (snd (save_new_test test w)) = faults w
  /\ fst (save_new_test test w) = Return (saved test).
Proof.
  unfold save_new_test, bind. rewrite load_reads_stored.
  destruct (save_effect (stored w ++ [Test_dict test])%list w)
    as (Hst & Hf & Hret).
  destruct (save_tests_to_db (stored w ++ [Test_dict test])%list w)
    as [[[]|e] w1]; cbn [fst snd] in *; [|discriminate].
  unfold ret. cbn [fst snd]. repeat split; assumption.
Qed.

Lemma delete_without_match (test_id : string) (w : world) :
  ~ Exists (has_id test_id) (stored w) ->
  delete_a_test test_id w = (Raise (HTTPException 404 "Test not found"), w).
Proof.
  intro Hno. apply no_match_all_other in Hno.
  unfold delete_a_test, bind. rewrite load_reads_stored.
  rewrite (filter_all_true _ _ Hno), Nat.eqb_refl. reflexivity.
Qed.

Lemma delete_with_match (test_id : string) (w : world) :
  Exists (has_id test_id) (stored w) ->
  after_delete test_id w
  = stored_after_write (filter (other_id test_id) (stored w)) w
  /\ faults (snd (delete_a_test test_id w)) = faults w
  /\ fst (delete_a_test test_id w) = Return (deleted test_id).
Proof.
  intro Hex.
  assert (Hlen : (List.length (filter (other_id test_id) (stored w))
                  =? List.length (stored w))%nat = false).
  { apply Nat.eqb_neq. intro Heq. apply filter_keeps_length in Heq.
    apply no_match_all_other in Heq. contradiction. }
  unfold after_delete, delete_a_test, bind. rewrite load_reads_stored, Hlen.
  destruct (save_effect (filter (other_id test_id) (stored w)) w)
    as (Hst & Hf & Hret).
  destruct (save_tests_to_db (filter (other_id test_id) (stored w)) w)
    as [[[]|e] w1]; cbn [fst snd] in *; [|discriminate].
  unfold ret. cbn [fst snd]. repeat split; assumption.
Qed.

Lemma has_id_dec (test_id : string) (l : list dict) :
  Exists (has_id test_id) l \/ ~ Exists (has_id test_id) l.
Proof.
  induction l as [|t l IH].
  - right. intro H. inversion H.
  - destruct (other_id test_id t) eqn:E.
    + destruct IH as [IH | IH]; [left; now right|].
      right. intro H. inversion H as [? ? Hid | ? ? Hl]; subst.
      * apply other_id_false in Hid. congruence.
      * contradiction.
    + left. left. now apply other_id_false.
Qed.

Lemma filter_other_id_clears (test_id : string) (l : list dict) :
  ~ Exists (has_id test_id) (filter (other_id test_id) l).
Proof.
  apply no_match_all_other. apply Forall_forall.
  intros t Ht. apply filter_In in Ht. tauto.
Qed.

Lemma has_id_of_Test_dict (test : Test) : has_id (id test) (Test_dict test).
Proof. unfold has_id. reflexivity. Qed.

(** X7: on a disk that takes writes, posting a test whose id no stored
    record carries and then deleting that id gives back the store exactly as
    it was, records and order; the DELETE answers success. *)
Theorem post_then_delete_restores (test : Test) (w : world) :
  faults w = DiskOk ->
  ~ Exists (has_id (id test)) (stored w) ->
  fst (delete_a_test (id test) (snd (save_new_test test w)))
  = Return (deleted (id test))
  /\ after_delete (id test) (snd (save_new_test test w)) = stored w.
Proof.
  intros Hdisk Hfresh.
  destruct (post_effect test w) as (Hst & Hf & _).
  unfold stored_after_write in Hst. rewrite Hdisk in Hst. rewrite Hdisk in Hf.
  destruct (delete_with_match (id test) (snd (save_new_test test w)))
    as (Hafter & _ & Hret).
  { rewrite Hst. apply Exists_app. right. left. apply has_id_of_Test_dict. }
  split; [exact Hret|].
  rewrite Hafter. unfold stored_after_write. rewrite Hf, Hst, filter_app.
  apply no_match_all_other, filter_all_true in Hfresh. rewrite Hfresh.
  cbn [filter].
  replace (other_id (id test) (Test_dict test)) with false.
  - apply app_nil_r.
  - symmetry. apply other_id_false, has_id_of_Test_dict.
Qed.

Lemma post_then_delete_restores_witness :
  after_delete "a" (snd (save_new_test twin_a empty_world)) = [].
Proof.
  destruct (post_then_delete_restores twin_a empty_world) as [_ Hafter].
  - reflexivity.
  - intro H. inversion H.
  - exact Hafter.
Defined.

(** X8: on a disk that takes writes, a second DELETE of the same id always
    ends in 404, whether the first one found the id or not, and changes
    nothing. *)
Theorem delete_twice_is_not_found (test_id : string) (w : world) :
  faults w = DiskOk ->
  delete_a_test test_id (snd (delete_a_test test_id w))
  = (Raise (HTTPException 404 "Test not found"),
     snd (delete_a_test test_id w)).
Proof.
  intro Hdisk. apply delete_without_match.
  destruct (has_id_dec test_id (stored w)) as [Hex | Hno].
  - destruct (delete_with_match test_id w Hex) as (Hafter & _ & _).
    unfold after_delete in Hafter. rewrite Hafter.
    unfold stored_after_write. rewrite Hdisk.
    apply filter_other_id_clears.
  - now rewrite (delete_without_match test_id w Hno).
Qed.

Lemma delete_twice_is_not_found_witness :
  fst (delete_a_test "a" (snd (delete_a_test "a" twins_world)))
  = Raise (HTTPException 404 "Test not found").
Proof.
  rewrite (delete_twice_is_not_found "a" twins_world).
  - reflexivity.
  - reflexivity.
Defined.

Lemma filter_filter_swap {A : Type} (f g : A -> bool) (l : list A) :
  filter f (filter g l) = filter g (filter f l).
Proof.
  induction l as [|x l IH]; [reflexivity|].
  cbn [filter]. destruct (f x) eqn:Hf, (g x) eqn:Hg; cbn [filter];
    rewrite ?Hf, ?Hg, IH; reflexivity.
Qed.

Lemma sorted_filter (f : dict -> bool) (l : list dict) :
  StronglySorted not_older l -> StronglySorted not_older (filter f l).
Proof.
  induction 1 as [|x l Hs IH Hall]; cbn [filter]; [constructor|].
  destruct (f x); [|exact IH].
  constructor; [exact IH|].
  rewrite Forall_forall in *. intros y Hy. apply filter_In in Hy.
  now apply Hall.
Qed.

Lemma newest_first_filter (f : dict -> bool) (l : list dict) :
  newest_first (filter f l) = filter f (newest_first l).
Proof.
  symmetry. apply newest_first_is_the_stable_sort.
  - apply sorted_filter, newest_first_sorted.
  - intro k. rewrite filter_filter_swap, newest_first_stable.
    apply filter_filter_swap.
Qed.

Lemma str_keys_filter (f : dict -> bool) (l : list dict) :
  str_keys l -> str_keys (filter f l).
Proof.
  unfold str_keys. rewrite !Forall_forall.
  intros H x Hx. apply filter_In in Hx. now apply H.
Qed.

(** X9: on a disk that takes writes, what GET returns after a DELETE is
    what it returned before with the records of that id taken out: the
    records that stay keep the places they had relative to one another. *)
Theorem get_after_delete_filters (test_id : string) (w : world) :
  faults w = DiskOk ->
  str_keys (stored w) ->
  exists out,
    get_all_tests w = Some out
    /\ get_all_tests (snd (delete_a_test test_id w))
       = Some (filter (other_id test_id) out).
Proof.
  intros Hdisk Hkeys. exists (newest_first (stored w)).
  assert (Hget : forall w', get_all_tests w' = sort_newest_first (stored w'))
    by reflexivity.
  split; [rewrite Hget; now apply sort_of_str_keys|].
  rewrite Hget.
  destruct (has_id_dec test_id (stored w)) as [Hex | Hno].
  - destruct (delete_with_match test_id w Hex) as (Hafter & _ & _).
    unfold after_delete in Hafter. rewrite Hafter.
    unfold stored_after_write. rewrite Hdisk.
    rewrite sort_of_str_keys by now apply str_keys_filter.
    now rewrite newest_first_filter.
  - rewrite (delete_without_match test_id w Hno). cbn [snd].
    rewrite sort_of_str_keys by assumption.
    rewrite <- newest_first_filter.
    apply no_match_all_other, filter_all_true in Hno. now rewrite Hno.
Qed.

Lemma get_after_delete_filters_witness :
  exists out,
    get_all_tests one_test_world = Some out
    /\ get_all_tests (snd (delete_a_test "a" one_test_world))
       = Some (filter (other_id "a") out).
Proof.
  apply (get_after_delete_filters "a" one_test_world).
  - reflexivity.
  - repeat constructor; discriminate.
Defined.

Lemma from_a_Test_fields (x : dict) : from_a_Test x -> has_every_field x.
Proof.
  intros [test ->]. unfold has_every_field.
  repeat split; eexists; reflexivity.
Qed.

Lemma from_a_Test_str_keys (l : list dict) :
  Forall from_a_Test l -> str_keys l.
Proof.
  apply Forall_impl. intros x [test ->]. discriminate.
Qed.

Lemma serve_keeps_shape (r : request) (w : world) :
  Forall from_a_Test (stored w) -> Forall from_a_Test (stored (serve r w)).
Proof.
  intro H. destruct r as [test | test_id]; cbn [serve].
  - destruct (post_effect test w) as (Hst & _ & _). rewrite Hst.
    unfold stored_after_write. destruct (faults w); [|exact H|constructor].
    apply Forall_app. split; [exact H|].
    constructor; [now exists test | constructor].
  - destruct (has_id_dec test_id (stored w)) as [Hex | Hno].
    + destruct (delete_with_match test_id w Hex) as (Hafter & _ & _).
      unfold after_delete in Hafter. rewrite Hafter.
      unfold stored_after_write. destruct (faults w); [|exact H|constructor].
      rewrite Forall_forall in *. intros x Hx. apply filter_In in Hx.
      now apply H.
    + now rewrite (delete_without_match test_id w Hno).
Qed.

(** X10: whatever POST and DELETE requests are served, in whatever order,
    each one finding the disk in a condition of its own (the write goes
    through, the file cannot be opened, or the write breaks off), a store
    that held only records made from a [Test] still holds only such records:
    each has its id, title, duration, questions and createdAt, of the
    declared types.  GET therefore always has an answer on it. *)
Theorem served_store_keeps_shape (steps : list (disk * request)) (w : world) :
  Forall from_a_Test (stored w) ->
  Forall has_every_field (stored (serve_run steps w))
  /\ exists out,
       get_all_tests (serve_run steps w) = Some out
       /\ Permutation (stored (serve_run steps w)) out.
Proof.
  intro H.
  assert (Hshape : Forall from_a_Test (stored (serve_run steps w))).
  { revert w H. induction steps as [|[f r] steps IH]; intros w H; [exact H|].
    cbn [serve_run fold_left]. apply IH. unfold serve_on. cbn [fst snd].
    apply serve_keeps_shape. exact H. }
  split.
  - eapply Forall_impl; [|exact Hshape]. exact from_a_Test_fields.
  - exists (newest_first (stored (serve_run steps w))). split.
    + change (get_all_tests (serve_run steps w))
        with (sort_newest_first (stored (serve_run steps w))).
      apply sort_of_str_keys. now apply from_a_Test_str_keys.
    + apply newest_first_perm.
Qed.

Lemma served_store_keeps_shape_witness :
  Forall has_every_field (stored (serve_run mixed_run empty_world)).
Proof.
  destruct (served_store_keeps_shape mixed_run empty_world) as [Hfields _].
  - constructor.
  - exact Hfields.
Defined.

(** In that run the writes end in three different ways, and what is stored
    at the end is the one test posted after the store became unreadable. *)
Example mixed_run_outcome :
  stored (serve_run mixed_run empty_world) = [Test_dict twin_a]
  /\ faults (serve_run mixed_run empty_world) = DiskOk.
Proof. split; reflexivity. Qed.

(** X11: DELETE answers success for an id that is stored even when the
    write fails.  If the file could not be opened the record is still
    stored afterwards; if the write broke off after the file was opened,
    nothing of the store can be read any more. *)
Theorem delete_a_test_hides_write_failure
    (test_id : string) (w : world) (msg : string) :
  Exists (has_id test_id) (stored w) ->
  (faults w = OpenFails msg ->
   fst (delete_a_test test_id w) = Return (deleted test_id)
   /\ after_delete test_id w = stored w)
  /\ (faults w = WriteFails msg ->
      fst (delete_a_test test_id w) = Return (deleted test_id)
      /\ after_delete test_id w = []).
Proof.
  intro Hex. destruct (delete_with_match test_id w Hex) as (Hafter & _ & Hret).
  unfold stored_after_write in Hafter.
  split; intro Hf; rewrite Hf in Hafter; split; assumption.
Qed.

Lemma delete_a_test_hides_write_failure_witness :
  fst (delete_a_test "a" full_disk_world) = Return (deleted "a")
  /\ after_delete "a" full_disk_world = [].
Proof.
  destruct (delete_a_test_hides_write_failure "a" full_disk_world
              "No space left on device") as [_ Hwrite].
  - left. reflexivity.
  - apply Hwrite. reflexivity.
Defined.

(** * Further properties of the response validator *)

Lemma lookup_dict_set_other (k k' : string) (v : json) (d : dict) :
  k' <> k -> Py.lookup k' (Py.dict_set k v d) = Py.lookup k' d.
Proof.
  intro Hne. induction d as [|[k0 v0] d IH]; cbn [Py.dict_set Py.lookup].
  - apply String.eqb_neq in Hne. now rewrite Hne.
  - destruct (k =? k0)%string eqn:E; cbn [Py.lookup].
    + apply String.eqb_eq in E. subst k0.
      apply String.eqb_neq in Hne. now rewrite Hne.
    + now rewrite IH.
Qed.

(** X12: validation returns for objects only, and what it returns is one
    of three things: the object with [error] and [raw_response], the
    response itself, or the response with [warnings] set to a list that is
    not empty.  In the last case every other field of the response has the
    value it came with. *)
Theorem validate_paper_returns_three_shapes (result returned : json) :
  validate_paper result = Return returned ->
  exists d,
    result = JObj d
    /\ (returned = missing_text_payload result
        \/ returned = result
        \/ exists warnings d',
             warnings <> []
             /\ returned = JObj d'
             /\ Py.lookup "warnings" d' = Some (JArr (map JStr warnings))
             /\ forall k, k <> "warnings" -> Py.lookup k d' = Py.lookup k d).
Proof.
  intro Hv. destruct result as [| | | | | |d]; try discriminate Hv.
  exists d. split; [reflexivity|].
  unfold validate_paper in Hv. cbn [Py.get and_then] in Hv.
  destruct (Py.iter _) as [qs|e]; [|discriminate Hv]. cbn [and_then] in Hv.
  destruct (scan_questions 0 qs []) as [[warnings|]|e]; cbn [and_then] in Hv;
    [| |discriminate Hv].
  - destruct warnings as [|w ws]; cbn [Py.truthy map attach_warnings] in Hv.
    + right. left. now injection Hv.
    + injection Hv as <-. right. right. exists (w :: ws). eexists.
      split; [discriminate|]. split; [reflexivity|].
      split; [apply lookup_dict_set|].
      intros k Hk. now apply lookup_dict_set_other.
  - left. now injection Hv.
Qed.

Lemma validate_paper_returns_three_shapes_witness :
  exists d,
    JObj (paper_with two_flagged) = JObj d
    /\ (flagged_paper = missing_text_payload (JObj (paper_with two_flagged))
        \/ flagged_paper = JObj (paper_with two_flagged)
        \/ exists warnings d',
             warnings <> []
             /\ flagged_paper = JObj d'
             /\ Py.lookup "warnings" d' = Some (JArr (map JStr warnings))
             /\ forall k, k <> "warnings" -> Py.lookup k d' = Py.lookup k d).
Proof.
  apply (validate_paper_returns_three_shapes (JObj (paper_with two_flagged))
           flagged_paper).
  reflexivity.
Defined.

(** X13: the test that draws a warning and the test that lets the look at
    the marked option run are each other's negation, on every index and
    every options value, and they raise together: the option text is looked
    at for exactly the questions that get no warning. *)
Theorem out_of_range_is_not_in_range (correct_idx options : json) :
  out_of_range correct_idx options
  = (let? inside := in_range correct_idx options in Return (negb inside)).
Proof.
  unfold out_of_range, in_range.
  destruct (Py.isinstance_int correct_idx) as [i|]; [|reflexivity].
  destruct (i <? 0) eqn:Hneg.
  - apply Z.ltb_lt in Hneg.
    replace (0 <=? i) with false by (symmetry; apply Z.leb_gt; lia).
    reflexivity.
  - apply Z.ltb_ge in Hneg.
    replace (0 <=? i) with true by (symmetry; apply Z.leb_le; lia).
    destruct (Py.len options) as [n|e]; [|reflexivity]. cbn [and_then].
    f_equal. destruct (n <=? i) eqn:H1, (i <? n) eqn:H2; try reflexivity;
      exfalso;
      repeat match goal with
             | H : (_ <? _) = true |- _ => apply Z.ltb_lt in H
             | H : (_ <? _) = false |- _ => apply Z.ltb_ge in H
             | H : (_ <=? _) = true |- _ => apply Z.leb_le in H
             | H : (_ <=? _) = false |- _ => apply Z.leb_gt in H
             end; lia.
Qed.

Lemma chars_nonempty (a : ascii) (s : string) : Py.chars (String a s) <> [].
Proof.
  cbn [Py.chars]. destruct (Py.chars s); [discriminate|].
  destruct (Py.continues s); discriminate.
Qed.

(** X14: when [questions] is there but is not an array, the loop runs over
    whatever Python iterates: nothing for an empty string or object, so the
    response passes untouched; the characters of a string or the keys of an
    object, on the first of which [.get] fails with an AttributeError; and
    null, a boolean or a number cannot be iterated at all, a TypeError. *)
Theorem validate_paper_questions_not_array (d : dict) (v : json) :
  Py.lookup "questions" d = Some v ->
  (forall l, v <> JArr l) ->
  validate_paper (JObj d) = looping_over v d.
Proof.
  intros Hq Hna. unfold validate_paper. cbn [Py.get and_then]. rewrite Hq.
  destruct v as [| | | |s|l|f]; try reflexivity.
  - destruct s as [|a s]; [reflexivity|].
    cbn [Py.iter and_then looping_over].
    pose proof (chars_nonempty a s) as Hne.
    destruct (Py.chars (String a s)) as [|c cs]; [contradiction|].
    reflexivity.
  - now contradiction (Hna l).
  - destruct f as [|[k x] f]; reflexivity.
Qed.

Lemma validate_paper_questions_not_array_witness :
  validate_paper (JObj [("questions", JStr "none")])
  = Raise (AttributeError "str" "get").
Proof.
  apply (validate_paper_questions_not_array
           [("questions", JStr "none")] (JStr "none")).
  - reflexivity.
  - discriminate.
Defined.

Lemma scan_past_sound_prefix (before rest : list json) :
  Forall has_text before ->
  forall idx warnings,
    exists warnings',
      scan_questions idx (before ++ rest)%list warnings
      = scan_questions (idx + Z.of_nat (List.length before)) rest warnings'.
Proof.
  induction 1 as [|p before [Hwt Htext] _ IH]; intros idx warnings.
  - exists warnings. cbn [app List.length Z.of_nat]. now rewrite Z.add_0_r.
  - cbn [app scan_questions].
    rewrite (check_question_well_typed idx p Hwt). unfold verdict_of.
    rewrite Htext. cbn [and_then].
    destruct (IH (idx + 1) (append_warning warnings
                              (if outside (index_of p)
                                    (Z.of_nat (List.length (options_of p)))
                               then Some (out_of_range_warning idx (index_of p))
                               else None))) as [ws Hws].
    exists ws. rewrite Hws. f_equal.
    change (List.length (p :: before)) with (S (List.length before)). lia.
Qed.

Lemma check_question_unreadable (idx : Z) (q : json) (e : exn) :
  text_unreadable q = Some e -> check_question idx q = Raise e.
Proof.
  unfold text_unreadable, check_question, missing_questionText.
  destruct q as [| | | | | |f]; try (intro H; injection H as <-; reflexivity).
  cbn [Py.get Py.getitem_str and_then].
  destruct (Py.lookup "questionText" f) as [v|]; [|discriminate].
  destruct v; try discriminate;
    destruct (Py.truthy _) eqn:Ht; try discriminate;
    intro H; injection H as <-; cbn [negb and_then strip_method]; reflexivity.
Qed.

(** X15: the loop reports a missing text only for what is falsy or a blank
    string.  A question that is not an object, or whose [questionText] is a
    truthy value other than a string (a number, [true], a non-empty array or
    object), is not reported: reading its text raises an AttributeError, and
    the request ends there, whatever the questions behind it hold. *)
Theorem validate_paper_unreadable_text
    (d : dict) (before : list json) (q : json) (behind : list json) (e : exn) :
  Py.lookup "questions" d = Some (JArr (before ++ q :: behind)%list) ->
  Forall has_text before ->
  text_unreadable q = Some e ->
  validate_paper (JObj d) = Raise e.
Proof.
  intros Hqs Hbefore Hq. unfold validate_paper. cbn [Py.get and_then].
  rewrite Hqs. cbn [Py.iter and_then].
  destruct (scan_past_sound_prefix before (q :: behind) Hbefore 0 [])
    as [ws Hws].
  rewrite Hws. cbn [scan_questions].
  now rewrite (check_question_unreadable _ q e Hq).
Qed.

Lemma validate_paper_unreadable_text_witness :
  validate_paper
    (JObj (paper_with [ good_question "Q1? (प्र1?)" (JInt 0);
                        JObj [("questionText", JInt 7)]; blank_question ]))
  = Raise (AttributeError "int" "strip").
Proof.
  apply (validate_paper_unreadable_text _ [good_question "Q1? (प्र1?)" (JInt 0)]
           (JObj [("questionText", JInt 7)]) [blank_question]).
  - reflexivity.
  - repeat constructor.
  - reflexivity.
Defined.

(** * Further properties of the endpoints *)

(** X16: a [questionCount] or [duration] that is falsy (0, 0.0, false,
    null, an empty string, array or object) counts as not supplied: with
    both falsy or absent the payload is the one of a request that names the
    exam only. *)
Theorem paper_request_ignores_falsy (d : dict) :
  falsy_or_absent "questionCount" d ->
  falsy_or_absent "duration" d ->
  paper_request (JObj d)
  = Return (payload_for
              (paper_prompt (dict_get d "examName" (JStr EmptyString))
                 JNull JNull)).
Proof.
  unfold falsy_or_absent. intros Hcount Hdur.
  unfold paper_request. cbn [Py.get and_then]. do 2 f_equal.
  unfold paper_prompt, dict_get.
  destruct (Py.lookup "questionCount" d) as [c|];
    destruct (Py.lookup "duration" d) as [t|];
    rewrite ?Hcount, ?Hdur; reflexivity.
Qed.

Lemma paper_request_ignores_falsy_witness :
  paper_request
    (JObj [ ("examName", JStr "Sample Exam"); ("questionCount", JStr EmptyString);
            ("duration", JFloat "0.0") ])
  = Return (payload_for (paper_prompt (JStr "Sample Exam") JNull JNull)).
Proof.
  apply (paper_request_ignores_falsy
           [ ("examName", JStr "Sample Exam");
             ("questionCount", JStr EmptyString); ("duration", JFloat "0.0") ]).
  - reflexivity.
  - reflexivity.
Defined.

(** X17: a request body that is valid JSON but not an object (an array, a
    string, a number, null) makes generate-paper fail with an AttributeError
    on its first [data.get], before anything is sent: the world is as it
    was, whatever the key and the provider. *)
Theorem generate_paper_body_not_object
    (API_KEY : string) (requests_post : string -> json -> response + string)
    (json_loads : string -> json + string) (data : json) (w : world) :
  (forall d, data <> JObj d) ->
  generate_paper API_KEY requests_post json_loads data w
  = (Raise (AttributeError (Py.type_name data) "get"), w).
Proof.
  intro Hno. unfold generate_paper, bind, lift.
  destruct data; try reflexivity. now contradiction (Hno fields).
Qed.

Lemma generate_paper_body_not_object_witness :
  generate_paper "k" sample_provider sample_loads (JArr []) empty_world
  = (Raise (AttributeError "list" "get"), empty_world).
Proof.
  apply (generate_paper_body_not_object "k" sample_provider sample_loads
           (JArr []) empty_world).
  discriminate.
Defined.

Lemma call_gemini_api_quiet
    (API_KEY : string) (requests_post : string -> json -> response + string)
    (json_loads : string -> json + string) (payload : json) (w : world) :
  quiet w (snd (call_gemini_api API_KEY requests_post json_loads payload w)).
Proof.
  destruct (call_gemini_api_footprint API_KEY requests_post json_loads payload w)
    as (Hcalls & Hdb & Hfaults).
  repeat split; try assumption.
  rewrite Hcalls. destruct (key_missing API_KEY); lia.
Qed.

(** X18: none of the three AI endpoints ever writes to the document store
    or retries: whatever the request, the key, the provider's answer and the
    way the request ends, the stored tests are what they were and at most
    one network call was made. *)
Theorem ai_endpoints_leave_store_alone
    (API_KEY : string) (requests_post : string -> json -> response + string)
    (json_loads : string -> json + string) (json_dumps : json -> string)
    (w : world) :
  (forall data,
      quiet w (snd (generate_paper API_KEY requests_post json_loads data w)))
  /\ (forall request,
        quiet w (snd (parse_text API_KEY requests_post json_loads request w)))
  /\ (forall request,
        quiet w (snd (generate_similar API_KEY requests_post json_loads
                        json_dumps request w))).
Proof.
  split; [|split].
  - intro data. unfold generate_paper, bind, lift.
    destruct (paper_request data) as [payload | e].
    + pose proof (call_gemini_api_quiet API_KEY requests_post json_loads
                    payload w) as Hq.
      destruct (call_gemini_api API_KEY requests_post json_loads payload w)
        as [[result | e] w']; exact Hq.
    + repeat split. cbn [snd]. lia.
  - intro request. apply call_gemini_api_quiet.
  - intro request. apply call_gemini_api_quiet.
Qed.

(** X19: with no key pasted in, each of the three AI endpoints fails with
    the 500 about the missing key and leaves the world as it was, whatever
    the request holds (for generate-paper: whatever object). *)
Theorem ai_endpoints_need_key
    (API_KEY : string) (requests_post : string -> json -> response + string)
    (json_loads : string -> json + string) (json_dumps : json -> string)
    (w : world) :
  API_KEY = EmptyString \/ API_KEY = "YOUR_API_KEY_HERE" ->
  (forall d,
      generate_paper API_KEY requests_post json_loads (JObj d) w
      = (Raise configuration_error, w))
  /\ (forall request,
        parse_text API_KEY requests_post json_loads request w
        = (Raise configuration_error, w))
  /\ (forall request,
        generate_similar API_KEY requests_post json_loads json_dumps request w
        = (Raise configuration_error, w)).
Proof.
  intro Hkey.
  assert (Hcall : forall payload,
             call_gemini_api API_KEY requests_post json_loads payload w
             = (Raise configuration_error, w)).
  { intro payload. destruct Hkey; subst API_KEY; reflexivity. }
  split; [|split].
  - intro d. unfold generate_paper, bind, lift, paper_request.
    cbn [Py.get and_then]. now rewrite Hcall.
  - intro request. apply Hcall.
  - intro request. apply Hcall.
Qed.

Lemma ai_endpoints_need_key_witness :
  parse_text EmptyString sample_provider sample_loads
    (TextParseRequest.make "1. What is 2+2? (A) 3 (B) 4*") empty_world
  = (Raise configuration_error, empty_world).
Proof.
  destruct (ai_endpoints_need_key EmptyString sample_provider sample_loads
              plain_dumps empty_world) as (_ & Hparse & _).
  - left. reflexivity.
  - apply Hparse.
Defined.

Lemma parse_text_prompt_holds_text (text : string) :
  Py.occurs_in text (parse_text_prompt text) = true.
Proof.
  unfold parse_text_prompt.
  repeat (apply occurs_in_middle || apply occurs_in_suffix).
Qed.

Lemma generate_similar_prompt_holds_dump (dumped : string) :
  Py.occurs_in dumped (generate_similar_prompt dumped) = true.
Proof.
  unfold generate_similar_prompt.
  repeat (apply occurs_in_middle || apply occurs_in_suffix).
Qed.

(** X20: with a key in place, the first thing parse-text does is post a
    payload whose prompt holds the submitted text as it is, and whose items
    must carry questionText, options and correctOptionIndex, no
    explanation; generate-similar posts one whose prompt holds what
    [json.dumps] made of the submitted questions, and whose items must
    carry an explanation too. *)
Theorem other_endpoints_post_their_input
    (API_KEY : string) (requests_post : string -> json -> response + string)
    (json_loads : string -> json + string) (json_dumps : json -> string)
    (w : world) :
  configured API_KEY ->
  (forall request,
      (exists later,
          log (snd (parse_text API_KEY requests_post json_loads request w))
          = (log w ++ Posted (API_URL API_KEY) (parse_text_payload request)
                   :: later)%list)
      /\ (exists prompt,
             prompt_of (parse_text_payload request) = Return (JStr prompt)
             /\ Py.occurs_in (TextParseRequest.text request) prompt = true)
      /\ required_of_items (parse_text_payload request)
         = Return (JArr [ JStr "questionText"; JStr "options";
                          JStr "correctOptionIndex" ]))
  /\ (forall request,
        (exists later,
            log (snd (generate_similar API_KEY requests_post json_loads
                        json_dumps request w))
            = (log w ++ Posted (API_URL API_KEY)
                          (generate_similar_payload json_dumps request)
                     :: later)%list)
        /\ (exists prompt,
               prompt_of (generate_similar_payload json_dumps request)
               = Return (JStr prompt)
               /\ Py.occurs_in
                    (json_dumps
                       (JArr (map JObj
                                (SimilarQuestionsRequest.questions request))))
                    prompt = true)
        /\ required_of_items (generate_similar_payload json_dumps request)
           = Return (JArr [ JStr "questionText"; JStr "options";
                            JStr "correctOptionIndex"; JStr "explanation" ])).
Proof.
  intro Hkey. split; intro request; (split; [|split]).
  - apply (call_gemini_api_posts_first _ _ _ _ _ Hkey).
  - eexists. split; [reflexivity|]. apply parse_text_prompt_holds_text.
  - reflexivity.
  - apply (call_gemini_api_posts_first _ _ _ _ _ Hkey).
  - eexists. split; [reflexivity|]. apply generate_similar_prompt_holds_dump.
  - reflexivity.
Qed.

Lemma other_endpoints_post_their_input_witness :
  exists later,
    log (snd (parse_text "k" sample_provider sample_loads
                (TextParseRequest.make "1. What is 2+2? (A) 3 (B) 4*")
                empty_world))
    = (log empty_world
       ++ Posted (API_URL "k")
            (parse_text_payload
               (TextParseRequest.make "1. What is 2+2? (A) 3 (B) 4*"))
       :: later)%list.
Proof.
  destruct (other_endpoints_post_their_input "k" sample_provider sample_loads
              plain_dumps empty_world) as [Hparse _].
  - split; discriminate.
  - destruct (Hparse (TextParseRequest.make "1. What is 2+2? (A) 3 (B) 4*"))
      as [Hposted _].
    exact Hposted.
Defined.

(** ** [repr] of text that does not print *)

(** A no-break space inside a list is shown by its escape, the accented
    letter as it is. *)
Example repr_escapes_no_break_space :
  Py.str (JArr [JStr "café au lait"; JInt 1]) = "['café\xa0au lait', 1]".
Proof. vm_compute. reflexivity. Qed.
